(** * Mayo: the graphics-entity mapping layer and the mesh exporters

    A shallow embedding of
    - [src/base/caf_utils.cpp]                    ([CafUtils])
    - [src/graphics/graphics_entity_driver.cpp]   (the two entity drivers)
    - [src/gui/gui_document.cpp]                  ([GuiDocument])
    - [src/base/io_occ_gltf_writer.cpp], [src/base/io_occ_vrml.cpp]

    The geometry kernel (OpenCascade) and the parts of Mayo that these files
    only call are interfaces here: type classes whose fields are the called
    functions.  Objects the code holds by handle are records of the
    properties the code reads and writes. *)

From Stdlib Require Import ZArith NArith List String Bool Lia.
Import ListNotations.
Open Scope string_scope.
Open Scope Z_scope.
Open Scope list_scope.

Set Implicit Arguments.

(* ================================================================== *)
(** * Part I.  Definitions *)
(* ================================================================== *)

(** ** The document model of the kernel *)

Inductive TopAbs_ShapeEnum :=
| TopAbs_COMPOUND | TopAbs_COMPSOLID | TopAbs_SOLID | TopAbs_SHELL
| TopAbs_FACE | TopAbs_WIRE | TopAbs_EDGE | TopAbs_VERTEX | TopAbs_SHAPE.

Definition TopAbs_ShapeEnum_eqb (a b : TopAbs_ShapeEnum) : bool :=
  match a, b with
  | TopAbs_COMPOUND, TopAbs_COMPOUND | TopAbs_COMPSOLID, TopAbs_COMPSOLID
  | TopAbs_SOLID, TopAbs_SOLID | TopAbs_SHELL, TopAbs_SHELL
  | TopAbs_FACE, TopAbs_FACE | TopAbs_WIRE, TopAbs_WIRE
  | TopAbs_EDGE, TopAbs_EDGE | TopAbs_VERTEX, TopAbs_VERTEX
  | TopAbs_SHAPE, TopAbs_SHAPE => true
  | _, _ => false
  end.

(** A triangulation is only passed around; its identity is enough. *)
Definition Poly_Triangulation := N.

Record TopoDS_Shape := {
  ShapeType : TopAbs_ShapeEnum
}.

(** The attribute classes the code asks for, by their [GetID()]. *)
Inductive Standard_GUID :=
| TNaming_NamedShape_ID
| TDataXtd_Triangulation_ID
| TDataStd_Name_ID
| Other_ID (n : N).

Definition Standard_GUID_eqb (a b : Standard_GUID) : bool :=
  match a, b with
  | TNaming_NamedShape_ID, TNaming_NamedShape_ID => true
  | TDataXtd_Triangulation_ID, TDataXtd_Triangulation_ID => true
  | TDataStd_Name_ID, TDataStd_Name_ID => true
  | Other_ID n, Other_ID m => N.eqb n m
  | _, _ => false
  end.

Inductive TDF_Attribute :=
| TNaming_NamedShape (s : TopoDS_Shape)
| TDataXtd_Triangulation (t : option Poly_Triangulation)
| TDataStd_Name (name : string)
| Other_Attribute (n : N).

Definition TDF_Attribute_ID (a : TDF_Attribute) : Standard_GUID :=
  match a with
  | TNaming_NamedShape _ => TNaming_NamedShape_ID
  | TDataXtd_Triangulation _ => TDataXtd_Triangulation_ID
  | TDataStd_Name _ => TDataStd_Name_ID
  | Other_Attribute n => Other_ID n
  end.

(** A label of a document: its entry (the tag path) and the attributes
    attached to it.  The null label is not a value of this type; where the
    code can hold one, the field is an [option]. *)
Record TDF_Label := {
  labelEntry : list N;
  labelAttributes : list TDF_Attribute
}.

(** [TDF_Label::FindAttribute(guid, attr)]: the attribute with that ID. *)
Definition TDF_Label_FindAttribute (guid : Standard_GUID) (label : TDF_Label)
  : option TDF_Attribute :=
  find (fun a => Standard_GUID_eqb (TDF_Attribute_ID a) guid)
       (labelAttributes label).

(** [XCaf] (xcaf.h) is called, never defined, in the embedded files. *)
Class XCaf := {
  XCaf_isShape : TDF_Label -> bool;
  XCaf_shape : TDF_Label -> TopoDS_Shape
}.

(** ** caf_utils.cpp *)

Module CafUtils.

Definition isNullOrEmpty (label : option TDF_Label) : bool :=
  match label with
  | None => true
  | Some l => match labelAttributes l with [] => true | _ => false end
  end.

(** [CafUtils::hasAttribute(label, attrGuid)] *)
Definition hasAttribute (label : TDF_Label) (attrGuid : Standard_GUID) : bool :=
  match TDF_Label_FindAttribute attrGuid label with
  | Some _ => true
  | None => false
  end.

(** [CafUtils::hasAttribute<TDataXtd_Triangulation>(label)] *)
Definition hasAttribute_TDataXtd_Triangulation (label : TDF_Label) : bool :=
  hasAttribute label TDataXtd_Triangulation_ID.

End CafUtils.

(** ** Enumerations of display modes *)

Record Enumeration_Item := {
  item_value : Z;
  item_name : string
}.

Definition Enumeration := list Enumeration_Item.

(** Modelled from the spec: [Enumeration::findIndex] (property_enumeration.h)
    is not among the embedded files; it is the index of the first item
    holding [value], and [-1] when no item does. *)
Fixpoint Enumeration_findIndex_from (i : Z) (e : Enumeration) (value : Z) : Z :=
  match e with
  | [] => -1
  | it :: rest =>
      if item_value it =? value then i
      else Enumeration_findIndex_from (i + 1) rest value
  end.

Definition Enumeration_findIndex (e : Enumeration) (value : Z) : Z :=
  Enumeration_findIndex_from 0 e value.

(** [enum DisplayMode] of [GraphicsShapeEntityDriver], in declaration order. *)
Definition DisplayMode_Wireframe : Z := 0.
Definition DisplayMode_HiddenLineRemoval : Z := 1.
Definition DisplayMode_Shaded : Z := 2.
Definition DisplayMode_ShadedWithFaceBoundary : Z := 3.

(** Kernel constants: [AIS_DisplayMode] and [MeshVS_DisplayModeFlags]. *)
Definition AIS_WireFrame : Z := 0.
Definition AIS_Shaded : Z := 1.
Definition MeshVS_DMF_WireFrame : Z := 1.
Definition MeshVS_DMF_Shading : Z := 2.
Definition MeshVS_DMF_Shrink : Z := 3.

(** ** Presentation objects, scenes and graphics entities *)

Inductive AIS_Class :=
| XCAFPrs_AISObject (label : TDF_Label)
| MeshVS_Mesh (dataSource : Poly_Triangulation).

Record Prs3d_LineAspect := {
  aspectColorBlack : bool;
  aspectSolid : bool;
  aspectWidth : Z
}.

(** What the drivers read and write of an [AIS_InteractiveObject]. *)
Record AIS_InteractiveObject := {
  aisClass : AIS_Class;
  DisplayMode : Z;
  FaceBoundaryDraw : bool;
  FaceBoundaryAspect : option Prs3d_LineAspect;
  IsoOnTriangulation : bool
}.

Inductive Prs3d_TypeOfHLR := Prs3d_TOH_NotSet | Prs3d_TOH_PolyAlgo | Prs3d_TOH_Algo.

Record Prs3d_Drawer := {
  TypeOfHLR : Prs3d_TypeOfHLR;
  DrawHiddenLine : bool
}.

Record V3d_View := { ComputedMode : bool }.

(** Calls into [GraphicsScene] whose bodies are not in the embedded files
    are recorded, in order. *)
Inductive SceneCall :=
| Call_eraseObject (obj : option AIS_InteractiveObject)
| Call_redraw
| Call_setVisible (obj : option AIS_InteractiveObject) (on : bool)
| Call_activateObjectSelection (obj : option AIS_InteractiveObject) (mode : Z)
| Call_Redisplay (obj : AIS_InteractiveObject).

Record GraphicsScene := {
  defaultPrs3dDrawer : Prs3d_Drawer;
  DefinedViews : list V3d_View;
  sceneCalls : list SceneCall
}.

Definition Address := N.

Record GraphicsEntity := {
  m_label : option TDF_Label;
  m_driverPtr : option Address;
  m_aisObject : option AIS_InteractiveObject;
  m_gfxScene : option Address
}.

(** [GraphicsEntity()] (graphics_entity.h): null label, null handle, null
    pointers. *)
Definition GraphicsEntity_default : GraphicsEntity :=
  {| m_label := None; m_driverPtr := None; m_aisObject := None; m_gfxScene := None |}.

(** ** graphics_entity_driver.cpp *)

Inductive Support := Support_None | Support_Partial | Support_Complete.

(** A driver object: where it lives ([this]) and the display modes its
    constructor registered. *)
Record GraphicsEntityDriver := {
  this : Address;
  displayModes : Enumeration
}.

Definition GraphicsEntityDriver_initEntity (drv : GraphicsEntityDriver)
    (entity : GraphicsEntity) (label : TDF_Label) : GraphicsEntity :=
  {| m_label := Some label;
     m_driverPtr := Some (this drv);
     m_aisObject := m_aisObject entity;
     m_gfxScene := m_gfxScene entity |}.

Definition GraphicsEntityDriver_setEntityAisObject
    (entity : GraphicsEntity) (obj : option AIS_InteractiveObject) : GraphicsEntity :=
  {| m_label := m_label entity;
     m_driverPtr := m_driverPtr entity;
     m_aisObject := obj;
     m_gfxScene := m_gfxScene entity |}.

(** [new XCAFPrs_AISObject(label)] as the kernel constructs it: no display
    mode of its own ([-1]), no face boundaries. *)
Definition new_XCAFPrs_AISObject (label : TDF_Label) : AIS_InteractiveObject :=
  {| aisClass := XCAFPrs_AISObject label;
     DisplayMode := -1;
     FaceBoundaryDraw := false;
     FaceBoundaryAspect := None;
     IsoOnTriangulation := false |}.

Definition AIS_SetDisplayMode (mode : Z) (o : AIS_InteractiveObject) :=
  {| aisClass := aisClass o; DisplayMode := mode;
     FaceBoundaryDraw := FaceBoundaryDraw o;
     FaceBoundaryAspect := FaceBoundaryAspect o;
     IsoOnTriangulation := IsoOnTriangulation o |}.

Definition AIS_SetFaceBoundaryDraw (on : bool) (o : AIS_InteractiveObject) :=
  {| aisClass := aisClass o; DisplayMode := DisplayMode o;
     FaceBoundaryDraw := on;
     FaceBoundaryAspect := FaceBoundaryAspect o;
     IsoOnTriangulation := IsoOnTriangulation o |}.

Definition AIS_SetFaceBoundaryAspect (a : Prs3d_LineAspect) (o : AIS_InteractiveObject) :=
  {| aisClass := aisClass o; DisplayMode := DisplayMode o;
     FaceBoundaryDraw := FaceBoundaryDraw o;
     FaceBoundaryAspect := Some a;
     IsoOnTriangulation := IsoOnTriangulation o |}.

Definition AIS_SetIsoOnTriangulation (on : bool) (o : AIS_InteractiveObject) :=
  {| aisClass := aisClass o; DisplayMode := DisplayMode o;
     FaceBoundaryDraw := FaceBoundaryDraw o;
     FaceBoundaryAspect := FaceBoundaryAspect o;
     IsoOnTriangulation := on |}.

(** ** Exceptions and mutable state

    The driver methods below mutate the entity they are given and the scene
    it is shown in, and may throw.  A computation is a function from the
    state to an outcome and the state it leaves behind; after a throw the
    state is the one reached when the exception was raised. *)

(** [null_dereference] stands for what C++ leaves undefined: a call through
    a null pointer or a null handle. *)
Inductive exception :=
| std_invalid_argument (what : string)
| null_dereference.

Definition Exc (S A : Type) : Type := S -> (exception + A) * S.

Definition ret {S A : Type} (a : A) : Exc S A := fun s => (inr a, s).

Definition throw {S A : Type} (e : exception) : Exc S A := fun s => (inl e, s).

Definition bind {S A B : Type} (m : Exc S A) (k : A -> Exc S B) : Exc S B :=
  fun s =>
    match m s with
    | (inl e, s') => (inl e, s')
    | (inr a, s') => k a s'
    end.

Definition get {S : Type} : Exc S S := fun s => (inr s, s).

Definition modify {S : Type} (f : S -> S) : Exc S unit := fun s => (inr tt, f s).

Declare Scope exc_scope.
Delimit Scope exc_scope with exc.
Notation "x <- m ;; k" := (bind m (fun x => k))
  (at level 61, m at next level, right associativity) : exc_scope.
Notation "m ;; k" := (bind m (fun _ => k))
  (at level 61, right associativity) : exc_scope.
Open Scope exc_scope.

(** What a driver method can reach from its [entity] argument: the entity
    itself and the scene its [graphicsScene()] points to. *)
Record World := {
  entity : GraphicsEntity;
  scene : GraphicsScene
}.

(** Methods of [GraphicsEntity] and [GraphicsScene] that the drivers call
    and whose bodies are in graphics_entity.cpp and graphics_scene.cpp. *)
Class GraphicsEntityApi := {
  GraphicsEntity_displayMode : World -> Z;
  GraphicsEntity_setDisplayMode : Z -> World -> World;
  GraphicsScene_hiddenLineDrawingOn : GraphicsScene -> bool
}.

Definition set_entity (e : GraphicsEntity) (w : World) : World :=
  {| entity := e; scene := scene w |}.

Definition set_scene (s : GraphicsScene) (w : World) : World :=
  {| entity := entity w; scene := s |}.

(** [entity->graphicsScene()->...]: the scene pointer is dereferenced. *)
Definition deref_graphicsScene : Exc World GraphicsScene :=
  w <- get ;;
  match m_gfxScene (entity w) with
  | Some _ => ret (scene w)
  | None => throw null_dereference
  end.

(** [entity->aisObject()->...]: the handle is dereferenced. *)
Definition deref_aisObject : Exc World AIS_InteractiveObject :=
  w <- get ;;
  match m_aisObject (entity w) with
  | Some o => ret o
  | None => throw null_dereference
  end.

Definition option_Address_eqb (a b : option Address) : bool :=
  match a, b with
  | Some x, Some y => N.eqb x y
  | None, None => true
  | _, _ => false
  end.

Definition GraphicsEntityDriver_throwIf_invalidDisplayMode {S : Type}
    (drv : GraphicsEntityDriver) (mode : Z) : Exc S unit :=
  if Enumeration_findIndex (displayModes drv) mode =? -1
  then throw (std_invalid_argument "Invalid display mode")
  else ret tt.

Definition GraphicsEntityDriver_throwIf_differentDriver
    (drv : GraphicsEntityDriver) : Exc World unit :=
  w <- get ;;
  if negb (option_Address_eqb (m_driverPtr (entity w)) (Some (this drv)))
  then throw (std_invalid_argument "Invalid driver for graphics entity")
  else ret tt.

Definition Drawer_SetTypeOfHLR (t : Prs3d_TypeOfHLR) (s : GraphicsScene) : GraphicsScene :=
  {| defaultPrs3dDrawer :=
       {| TypeOfHLR := t; DrawHiddenLine := DrawHiddenLine (defaultPrs3dDrawer s) |};
     DefinedViews := DefinedViews s;
     sceneCalls := sceneCalls s |}.

Definition Drawer_SetDrawHiddenLine (on : bool) (s : GraphicsScene) : GraphicsScene :=
  {| defaultPrs3dDrawer :=
       {| TypeOfHLR := TypeOfHLR (defaultPrs3dDrawer s); DrawHiddenLine := on |};
     DefinedViews := DefinedViews s;
     sceneCalls := sceneCalls s |}.

(** The lambda [fnSetViewComputedMode]: every defined view of the viewer. *)
Definition fnSetViewComputedMode (on : bool) (s : GraphicsScene) : GraphicsScene :=
  {| defaultPrs3dDrawer := defaultPrs3dDrawer s;
     DefinedViews := map (fun _ => {| ComputedMode := on |}) (DefinedViews s);
     sceneCalls := sceneCalls s |}.

Definition record_call (c : SceneCall) (s : GraphicsScene) : GraphicsScene :=
  {| defaultPrs3dDrawer := defaultPrs3dDrawer s;
     DefinedViews := DefinedViews s;
     sceneCalls := sceneCalls s ++ [c] |}.

Definition modify_scene (f : GraphicsScene -> GraphicsScene) : Exc World unit :=
  modify (fun w => set_scene (f (scene w)) w).

Definition modify_aisObject (f : AIS_InteractiveObject -> AIS_InteractiveObject)
  : Exc World unit :=
  modify (fun w =>
    set_entity
      (GraphicsEntityDriver_setEntityAisObject (entity w)
         (option_map f (m_aisObject (entity w)))) w).

(** *** What [GraphicsMeshEntityDriver::createEntity] builds *)

(** [Handle_BRep_TFace::DownCast(shape.TShape())] and
    [tface->Triangulation()]: kernel calls; either handle may be null. *)
Class BRepKernel := {
  BRep_TFace : Type;
  BRep_TFace_DownCast : TopoDS_Shape -> option BRep_TFace;
  BRep_TFace_Triangulation : BRep_TFace -> option Poly_Triangulation
}.

Definition Quantity_Color := N.
Definition Graphic3d_NameOfMaterial := N.
Definition Graphic3d_NOM_PLASTIC : Graphic3d_NameOfMaterial := 6%N.

(** [GraphicsMeshEntityDriver::DefaultValues], a global of the program. *)
Record MeshDefaultValues := {
  dv_color : Quantity_Color;
  dv_edgeColor : Quantity_Color;
  dv_material : Graphic3d_NameOfMaterial;
  dv_showEdges : bool;
  dv_showNodes : bool
}.

Inductive MeshVS_DrawerAttribute :=
| MeshVS_DA_ShowEdges | MeshVS_DA_DisplayNodes | MeshVS_DA_FrontMaterial
| MeshVS_DA_InteriorColor | MeshVS_DA_EdgeColor.

Inductive MeshVS_DrawerValue :=
| DV_Boolean (b : bool)
| DV_Material (m : Graphic3d_NameOfMaterial)
| DV_Color (c : Quantity_Color).

Definition MeshVS_DrawerAttribute_eqb (a b : MeshVS_DrawerAttribute) : bool :=
  match a, b with
  | MeshVS_DA_ShowEdges, MeshVS_DA_ShowEdges
  | MeshVS_DA_DisplayNodes, MeshVS_DA_DisplayNodes
  | MeshVS_DA_FrontMaterial, MeshVS_DA_FrontMaterial
  | MeshVS_DA_InteriorColor, MeshVS_DA_InteriorColor
  | MeshVS_DA_EdgeColor, MeshVS_DA_EdgeColor => true
  | _, _ => false
  end.

(** A drawer is a map from attributes to values; the setters overwrite. *)
Definition MeshVS_Drawer := list (MeshVS_DrawerAttribute * MeshVS_DrawerValue).

Definition Drawer_Set (key : MeshVS_DrawerAttribute) (v : MeshVS_DrawerValue)
    (d : MeshVS_Drawer) : MeshVS_Drawer :=
  (key, v) :: filter (fun kv => negb (MeshVS_DrawerAttribute_eqb (fst kv) key)) d.

Definition Drawer_Get (key : MeshVS_DrawerAttribute) (d : MeshVS_Drawer)
  : option MeshVS_DrawerValue :=
  option_map snd (find (fun kv => MeshVS_DrawerAttribute_eqb (fst kv) key) d).

Inductive MeshVS_MeshSelectionMethod := MeshVS_MSM_PRECISE | MeshVS_MSM_NODES | MeshVS_MSM_BOX.

(** The part of a [MeshVS_Mesh] that [AIS_InteractiveObject] above has no
    field for: its drawer, the selectable flags of its builders, and its
    selection method. *)
Record MeshVS_MeshDetails := {
  mesh_drawer : MeshVS_Drawer;
  mesh_builders : list bool;
  mesh_selMethod : option MeshVS_MeshSelectionMethod
}.

Module GraphicsShapeEntityDriver.

(** The constructor, for a driver allocated at [addr]. *)
Definition new (addr : Address) : GraphicsEntityDriver :=
  {| this := addr;
     displayModes :=
       [ {| item_value := DisplayMode_Wireframe; item_name := "WIREFRAME" |};
         {| item_value := DisplayMode_HiddenLineRemoval; item_name := "HLR" |};
         {| item_value := DisplayMode_Shaded; item_name := "SHADED" |};
         {| item_value := DisplayMode_ShadedWithFaceBoundary;
            item_name := "SHADED_FACE_BNDS" |} ] |}.

Definition supportStatus `{XCaf} (label : TDF_Label) : Support :=
  if XCaf_isShape label then Support_Complete
  else
    if CafUtils.hasAttribute_TDataXtd_Triangulation label
    then (* //return Support::Partial; *) Support_None
    else Support_None.

Definition createEntity `{XCaf} (drv : GraphicsEntityDriver) (label : TDF_Label)
  : GraphicsEntity :=
  let entity := GraphicsEntityDriver_initEntity drv GraphicsEntity_default label in
  if XCaf_isShape label then
    let gpx := new_XCAFPrs_AISObject label in
    let gpx := AIS_SetDisplayMode AIS_Shaded gpx in
    let gpx := AIS_SetFaceBoundaryDraw true gpx in
    let gpx := AIS_SetFaceBoundaryAspect
                 {| aspectColorBlack := true; aspectSolid := true; aspectWidth := 1 |}
                 gpx in
    let gpx := AIS_SetIsoOnTriangulation true gpx in
    GraphicsEntityDriver_setEntityAisObject entity (Some gpx)
  else
    if CafUtils.hasAttribute_TDataXtd_Triangulation label then entity
    else entity.

Definition applyDisplayMode `{GraphicsEntityApi}
    (drv : GraphicsEntityDriver) (mode : Z) : Exc World unit :=
  GraphicsEntityDriver_throwIf_differentDriver drv ;;
  GraphicsEntityDriver_throwIf_invalidDisplayMode drv mode ;;
  _ <- deref_graphicsScene ;;
  if mode =? DisplayMode_HiddenLineRemoval then
    modify_scene (Drawer_SetTypeOfHLR Prs3d_TOH_PolyAlgo) ;;
    modify_scene (Drawer_SetDrawHiddenLine true) ;;
    modify_scene (fnSetViewComputedMode true)
  else
    modify_scene (Drawer_SetTypeOfHLR Prs3d_TOH_NotSet) ;;
    modify_scene (Drawer_SetDrawHiddenLine false) ;;
    modify_scene (fnSetViewComputedMode false) ;;
    let aisDispMode := if mode =? DisplayMode_Wireframe then AIS_WireFrame else AIS_Shaded in
    let showFaceBounds := mode =? DisplayMode_ShadedWithFaceBoundary in
    aisObject <- deref_aisObject ;;
    (if negb (DisplayMode aisObject =? aisDispMode)
     then modify (GraphicsEntity_setDisplayMode aisDispMode)
     else ret tt) ;;
    aisObject <- deref_aisObject ;;
    if negb (Bool.eqb (FaceBoundaryDraw aisObject) showFaceBounds) then
      modify_aisObject (AIS_SetFaceBoundaryDraw showFaceBounds) ;;
      modify_scene (record_call
                      (Call_Redisplay (AIS_SetFaceBoundaryDraw showFaceBounds aisObject)))
    else ret tt.

Definition currentDisplayMode `{GraphicsEntityApi}
    (drv : GraphicsEntityDriver) : Exc World Z :=
  GraphicsEntityDriver_throwIf_differentDriver drv ;;
  gfxScene <- deref_graphicsScene ;;
  if GraphicsScene_hiddenLineDrawingOn gfxScene then ret DisplayMode_HiddenLineRemoval
  else
    w <- get ;;
    let displayMode := GraphicsEntity_displayMode w in
    if displayMode =? AIS_WireFrame then ret DisplayMode_Wireframe
    else if displayMode =? AIS_Shaded then
      aisObject <- deref_aisObject ;;
      ret (if FaceBoundaryDraw aisObject
           then DisplayMode_ShadedWithFaceBoundary
           else DisplayMode_Shaded)
    else ret (-1).

End GraphicsShapeEntityDriver.

Module GraphicsMeshEntityDriver.

Definition new (addr : Address) : GraphicsEntityDriver :=
  {| this := addr;
     displayModes :=
       [ {| item_value := MeshVS_DMF_WireFrame; item_name := "WIREFRAME" |};
         {| item_value := MeshVS_DMF_Shading; item_name := "SHADED" |};
         {| item_value := MeshVS_DMF_Shrink; item_name := "SHRINK" |} ] |}.

Definition supportStatus `{XCaf} (label : TDF_Label) : Support :=
  if CafUtils.hasAttribute_TDataXtd_Triangulation label then Support_Complete
  else
    if XCaf_isShape label then
      let shape := XCaf_shape label in
      if TopAbs_ShapeEnum_eqb (ShapeType shape) TopAbs_FACE then Support_Partial
      else Support_None
    else Support_None.

Definition applyDisplayMode `{GraphicsEntityApi}
    (drv : GraphicsEntityDriver) (mode : Z) : Exc World unit :=
  GraphicsEntityDriver_throwIf_differentDriver drv ;;
  GraphicsEntityDriver_throwIf_invalidDisplayMode drv mode ;;
  modify (GraphicsEntity_setDisplayMode mode).

Definition currentDisplayMode `{GraphicsEntityApi}
    (drv : GraphicsEntityDriver) : Exc World Z :=
  GraphicsEntityDriver_throwIf_differentDriver drv ;;
  w <- get ;;
  ret (GraphicsEntity_displayMode w).

(** The triangulation [createEntity] decides to show, if any. *)
Definition polyTriOf `{XCaf} `{BRepKernel} (label : TDF_Label) : option Poly_Triangulation :=
  match TDF_Label_FindAttribute TDataXtd_Triangulation_ID label with
  | Some (TDataXtd_Triangulation t) => t
  | Some _ => None
  | None =>
      if XCaf_isShape label then
        let shape := XCaf_shape label in
        if TopAbs_ShapeEnum_eqb (ShapeType shape) TopAbs_FACE then
          match BRep_TFace_DownCast shape with
          | Some tface => BRep_TFace_Triangulation tface
          | None => None
          end
        else None
      else None
  end.

(** [createEntity]: the entity, and beside it the details of the
    [MeshVS_Mesh] it points to, when one was built.  [defaults] is
    [defaultValues()] at the time of the call; [drawer0] is the drawer of a
    new [MeshVS_Mesh]. *)
Definition createEntity `{XCaf} `{BRepKernel}
    (defaults : MeshDefaultValues) (drawer0 : MeshVS_Drawer)
    (drv : GraphicsEntityDriver) (label : TDF_Label)
  : GraphicsEntity * option MeshVS_MeshDetails :=
  let entity := GraphicsEntityDriver_initEntity drv GraphicsEntity_default label in
  match polyTriOf label with
  | Some polyTri =>
      let d := drawer0 in
      let d := Drawer_Set MeshVS_DA_ShowEdges (DV_Boolean (dv_showEdges defaults)) d in
      let d := Drawer_Set MeshVS_DA_DisplayNodes (DV_Boolean (dv_showNodes defaults)) d in
      let d := Drawer_Set MeshVS_DA_FrontMaterial (DV_Material Graphic3d_NOM_PLASTIC) d in
      let d := Drawer_Set MeshVS_DA_InteriorColor (DV_Color (dv_color defaults)) d in
      let d := Drawer_Set MeshVS_DA_FrontMaterial (DV_Material (dv_material defaults)) d in
      let d := Drawer_Set MeshVS_DA_EdgeColor (DV_Color (dv_edgeColor defaults)) d in
      let gpx := {| aisClass := MeshVS_Mesh polyTri;
                    DisplayMode := MeshVS_DMF_Shading;
                    FaceBoundaryDraw := false;
                    FaceBoundaryAspect := None;
                    IsoOnTriangulation := false |} in
      (GraphicsEntityDriver_setEntityAisObject entity (Some gpx),
       Some {| mesh_drawer := d;
               mesh_builders := [true];
               mesh_selMethod := Some MeshVS_MSM_PRECISE |})
  | None => (entity, None)
  end.

End GraphicsMeshEntityDriver.

(** ** gui_document.cpp *)

Definition TreeNodeId := N.

(** What [GuiDocument] reads of the [Document] it observes: the ids of its
    entities, [entityTreeNodeId(i)] for [i < entityCount()], and the label
    of a tree node.  The document is a shared object that mutates between
    signals, so every handler receives the document as it is then. *)
Record Document := {
  entityTreeNodeIds : list TreeNodeId;
  DocumentTreeNode_label : TreeNodeId -> option TDF_Label
}.

(** [GraphicsEntity::setScene] *)
Definition GraphicsEntity_setScene (scenePtr : Address) (e : GraphicsEntity)
  : GraphicsEntity :=
  {| m_label := m_label e;
     m_driverPtr := m_driverPtr e;
     m_aisObject := m_aisObject e;
     m_gfxScene := Some scenePtr |}.

(** [GraphicsEntity::graphicsScene] *)
Definition GraphicsEntity_graphicsScene (e : GraphicsEntity) : option Address :=
  m_gfxScene e.

(** The kernel and the Mayo services [GuiDocument] calls into. *)
Class GuiKernel := {
  Bnd_Box : Type;
  (** the box [Bnd_Box()] builds and [SetVoid()] resets to *)
  Bnd_Box_void : Bnd_Box;
  BndUtils_add : Bnd_Box -> Bnd_Box -> Bnd_Box;
  GraphicsUtils_AisObject_boundingBox : option AIS_InteractiveObject -> Bnd_Box;
  (** [m_guiApp->graphicsEntityDriverTable()->createEntity(label)] *)
  GraphicsEntityDriverTable_createEntity : option TDF_Label -> GraphicsEntity;
  GraphicsTreeNodeMapping : Type;
  (** [m_guiApp->graphicsTreeNodeMappingDriverTable()->createMapping(node)] *)
  createMapping : Document -> TreeNodeId -> option GraphicsTreeNodeMapping;
  selectionMode : GraphicsTreeNodeMapping -> Z;
  GraphicsOwnerPtr : Type;
  (** the owners [GraphicsScene::foreachOwner] visits, in order *)
  GraphicsScene_owners :
    GraphicsScene -> option AIS_InteractiveObject -> Z -> list GraphicsOwnerPtr;
  mapGraphicsOwner :
    GraphicsOwnerPtr -> GraphicsTreeNodeMapping -> bool * GraphicsTreeNodeMapping
}.

(** [std::find_if] over a vector: the position and the element found. *)
Fixpoint find_if_from {A : Type} (i : nat) (p : A -> bool) (l : list A)
  : option (nat * A) :=
  match l with
  | [] => None
  | x :: rest => if p x then Some (i, x) else find_if_from (S i) p rest
  end.

(** [std::vector::erase(begin() + i)] *)
Definition vector_erase {A : Type} (i : nat) (l : list A) : list A :=
  firstn i l ++ skipn (S i) l.

Module GuiDocument.

Section WithKernel.
Context `{K : GuiKernel}.

Record GraphicsItem := {
  graphicsEntity : GraphicsEntity;
  entityTreeNodeId : TreeNodeId;
  gpxTreeNodeMapping : option GraphicsTreeNodeMapping
}.

Inductive Signal :=
| graphicsBoundingBoxChanged (bndBox : Bnd_Box).

Record t := {
  (** [&m_gfxScene] *)
  gfxScenePtr : Address;
  m_gfxScene : GraphicsScene;
  (** number of [GraphicsUtils::V3dView_fitAll(m_v3dView)] calls *)
  m_v3dView_fitAll : nat;
  m_vecGraphicsItem : list GraphicsItem;
  m_gpxBoundingBox : Bnd_Box;
  (** signals emitted and lines sent to [qDebug()], oldest first *)
  emitted : list Signal;
  debugOutput : list string
}.

Definition with_scene (f : GraphicsScene -> GraphicsScene) (g : t) : t :=
  {| gfxScenePtr := gfxScenePtr g;
     m_gfxScene := f (m_gfxScene g);
     m_v3dView_fitAll := m_v3dView_fitAll g;
     m_vecGraphicsItem := m_vecGraphicsItem g;
     m_gpxBoundingBox := m_gpxBoundingBox g;
     emitted := emitted g;
     debugOutput := debugOutput g |}.

Definition with_items (items : list GraphicsItem) (g : t) : t :=
  {| gfxScenePtr := gfxScenePtr g;
     m_gfxScene := m_gfxScene g;
     m_v3dView_fitAll := m_v3dView_fitAll g;
     m_vecGraphicsItem := items;
     m_gpxBoundingBox := m_gpxBoundingBox g;
     emitted := emitted g;
     debugOutput := debugOutput g |}.

Definition with_boundingBox (b : Bnd_Box) (g : t) : t :=
  {| gfxScenePtr := gfxScenePtr g;
     m_gfxScene := m_gfxScene g;
     m_v3dView_fitAll := m_v3dView_fitAll g;
     m_vecGraphicsItem := m_vecGraphicsItem g;
     m_gpxBoundingBox := b;
     emitted := emitted g;
     debugOutput := debugOutput g |}.

Definition emit (s : Signal) (g : t) : t :=
  {| gfxScenePtr := gfxScenePtr g;
     m_gfxScene := m_gfxScene g;
     m_v3dView_fitAll := m_v3dView_fitAll g;
     m_vecGraphicsItem := m_vecGraphicsItem g;
     m_gpxBoundingBox := m_gpxBoundingBox g;
     emitted := emitted g ++ [s];
     debugOutput := debugOutput g |}.

Definition qDebug (lines : list string) (g : t) : t :=
  {| gfxScenePtr := gfxScenePtr g;
     m_gfxScene := m_gfxScene g;
     m_v3dView_fitAll := m_v3dView_fitAll g;
     m_vecGraphicsItem := m_vecGraphicsItem g;
     m_gpxBoundingBox := m_gpxBoundingBox g;
     emitted := emitted g;
     debugOutput := debugOutput g ++ lines |}.

Definition V3dView_fitAll (g : t) : t :=
  {| gfxScenePtr := gfxScenePtr g;
     m_gfxScene := m_gfxScene g;
     m_v3dView_fitAll := S (m_v3dView_fitAll g);
     m_vecGraphicsItem := m_vecGraphicsItem g;
     m_gpxBoundingBox := m_gpxBoundingBox g;
     emitted := emitted g;
     debugOutput := debugOutput g |}.

(** A pointer into [m_vecGraphicsItem]: the position and the item there;
    [None] is [nullptr]. *)
Definition findGraphicsItem (id : TreeNodeId) (g : t) : option (nat * GraphicsItem) :=
  find_if_from 0 (fun item => N.eqb (entityTreeNodeId item) id) (m_vecGraphicsItem g).

Definition findGraphicsEntity (id : TreeNodeId) (g : t) : GraphicsEntity :=
  match findGraphicsItem id g with
  | Some (_, gfxItem) => graphicsEntity gfxItem
  | None => GraphicsEntity_default
  end.

(** The [foreachOwner] loop of [mapGraphics]: every owner is offered to
    the mapping; a refused one leaves a line on [qDebug()]. *)
Fixpoint mapOwners (owners : list GraphicsOwnerPtr) (m : GraphicsTreeNodeMapping)
    (dbg : list string) : GraphicsTreeNodeMapping * list string :=
  match owners with
  | [] => (m, dbg)
  | ptr :: rest =>
      let '(ok, m') := mapGraphicsOwner ptr m in
      mapOwners rest m' (if ok then dbg else dbg ++ ["Insertion failed"%string])
  end.

Definition mapGraphics (doc : Document) (id : TreeNodeId) (g : t) : t :=
  let gfxEntity := GraphicsEntityDriverTable_createEntity (DocumentTreeNode_label doc id) in
  match m_aisObject gfxEntity with
  | None => g
  | Some _ =>
      let gfxEntity := GraphicsEntity_setScene (gfxScenePtr g) gfxEntity in
      let g := with_scene (record_call (Call_setVisible (m_aisObject gfxEntity) true)) g in
      let g := with_scene (record_call Call_redraw) g in
      let '(mapping, g) :=
        match createMapping doc id with
        | Some m =>
            let selectMode := selectionMode m in
            if negb (selectMode =? -1) then
              let g := with_scene
                         (record_call
                            (Call_activateObjectSelection (m_aisObject gfxEntity) selectMode))
                         g in
              let '(m', dbg) :=
                mapOwners
                  (GraphicsScene_owners (m_gfxScene g) (m_aisObject gfxEntity) selectMode)
                  m [] in
              (Some m', qDebug dbg g)
            else (Some m, g)
        | None => (None, g)
        end in
      let item := {| graphicsEntity := gfxEntity;
                     entityTreeNodeId := id;
                     gpxTreeNodeMapping := mapping |} in
      let g := V3dView_fitAll g in
      let itemBndBox := GraphicsUtils_AisObject_boundingBox (m_aisObject gfxEntity) in
      let g := with_boundingBox (BndUtils_add (m_gpxBoundingBox g) itemBndBox) g in
      with_items (m_vecGraphicsItem g ++ [item]) g
  end.

Definition onDocumentEntityAdded (doc : Document) (id : TreeNodeId) (g : t) : t :=
  let g := mapGraphics doc id g in
  emit (graphicsBoundingBoxChanged (m_gpxBoundingBox g)) g.

(** The loop "Recompute bounding box". *)
Definition recomputeBoundingBox (items : list GraphicsItem) : Bnd_Box :=
  fold_left
    (fun box item =>
       BndUtils_add box
         (GraphicsUtils_AisObject_boundingBox (m_aisObject (graphicsEntity item))))
    items Bnd_Box_void.

Definition onDocumentEntityAboutToBeDestroyed (id : TreeNodeId) (g : t) : t :=
  match findGraphicsItem id g with
  | Some (pos, gfxItem) =>
      let gfxEntity := graphicsEntity gfxItem in
      let g := with_scene (record_call (Call_eraseObject (m_aisObject gfxEntity))) g in
      let g := with_items (vector_erase pos (m_vecGraphicsItem g)) g in
      let g := with_scene (record_call Call_redraw) g in
      let g := with_boundingBox (recomputeBoundingBox (m_vecGraphicsItem g)) g in
      emit (graphicsBoundingBoxChanged (m_gpxBoundingBox g)) g
  | None => g
  end.

(** The constructor, from the mapping loop on: [g0] is the object as the
    member initialisers and the view set-up leave it. *)
Definition constructed (doc : Document) (g0 : t) : t :=
  fold_left (fun g id => mapGraphics doc id g) (entityTreeNodeIds doc) g0.

(** A [GuiDocument] before the mapping loop: no item, a void box. *)
Definition fresh (scenePtr : Address) (scene0 : GraphicsScene) : t :=
  {| gfxScenePtr := scenePtr;
     m_gfxScene := scene0;
     m_v3dView_fitAll := 0;
     m_vecGraphicsItem := [];
     m_gpxBoundingBox := Bnd_Box_void;
     emitted := [];
     debugOutput := [] |}.

(** The signals of [Document] the constructor connects to. *)
Inductive DocumentSignal :=
| entityAdded (doc : Document) (id : TreeNodeId)
| entityAboutToBeDestroyed (id : TreeNodeId).

Definition deliver (g : t) (s : DocumentSignal) : t :=
  match s with
  | entityAdded doc id => onDocumentEntityAdded doc id g
  | entityAboutToBeDestroyed id => onDocumentEntityAboutToBeDestroyed id g
  end.

Definition run (signals : list DocumentSignal) (g : t) : t :=
  fold_left deliver signals g.

End WithKernel.

End GuiDocument.

(** ** Application items and the exporters *)

(** A [DocumentPtr] that is not null: the address of the document. *)
Definition DocumentPtr := Address.

(** Modelled from the spec: [ApplicationItem] (application_item.h) is not
    among the embedded files.  An item is a document, a document tree node
    (which knows the document it belongs to and its label), or neither. *)
Inductive ApplicationItem :=
| Item_Invalid
| Item_Document (doc : DocumentPtr)
| Item_DocumentTreeNode (doc : DocumentPtr) (id : TreeNodeId) (label : TDF_Label).

Definition isDocument (appItem : ApplicationItem) : bool :=
  match appItem with Item_Document _ => true | _ => false end.

Definition isDocumentTreeNode (appItem : ApplicationItem) : bool :=
  match appItem with Item_DocumentTreeNode _ _ _ => true | _ => false end.

(** [appItem.document()]: a null handle for an invalid item. *)
Definition document (appItem : ApplicationItem) : option DocumentPtr :=
  match appItem with
  | Item_Invalid => None
  | Item_Document doc => Some doc
  | Item_DocumentTreeNode doc _ _ => Some doc
  end.

Definition IsNull {A : Type} (h : option A) : bool :=
  match h with None => true | Some _ => false end.

(** The kernel's glTF writer and the output stream of the VRML writer. *)
Class ExportKernel := {
  FileSystem : Type;
  VrmlData_Scene : Type;
  (** [RWGltf_CafWriter(filepath, isBinary).Perform(doc, [rootLabels,] ...)] *)
  RWGltf_CafWriter_Perform :
    string -> bool -> DocumentPtr -> option (list TDF_Label) ->
    FileSystem -> bool * FileSystem;
  (** [OSD_OpenStream(outs, filepath, std::ios::out)], then [if (outs)] *)
  OSD_OpenStream : string -> FileSystem -> bool * FileSystem;
  (** [outs << scene; outs.close(); return outs.good()] *)
  write_close_good : string -> VrmlData_Scene -> FileSystem -> bool * FileSystem
}.

Module OccGltfWriter.

Inductive Format := Json | Binary.

Record t := {
  m_document : option DocumentPtr;
  m_seqRootLabel : list TDF_Label;
  m_params_format : Format
}.

Definition set_document (d : option DocumentPtr) (w : t) : t :=
  {| m_document := d; m_seqRootLabel := m_seqRootLabel w;
     m_params_format := m_params_format w |}.

Definition set_seqRootLabel (l : list TDF_Label) (w : t) : t :=
  {| m_document := m_document w; m_seqRootLabel := l;
     m_params_format := m_params_format w |}.

(** One turn of the loop of [transfer]. *)
Definition transfer_item (w : t) (appItem : ApplicationItem) : t :=
  if isDocument appItem && IsNull (m_document w) then
    set_document (document appItem) w
  else if isDocumentTreeNode appItem then
    let w := if IsNull (m_document w) then set_document (document appItem) w else w in
    match appItem with
    | Item_DocumentTreeNode _ _ label =>
        if option_Address_eqb (document appItem) (m_document w)
        then set_seqRootLabel (m_seqRootLabel w ++ [label]) w
        else w
    | _ => w
    end
  else w.

Definition transfer (spanAppItem : list ApplicationItem) (w : t) : bool * t :=
  let w := set_document None w in
  let w := set_seqRootLabel [] w in
  let w := fold_left transfer_item spanAppItem w in
  if IsNull (m_document w) then (false, w) else (true, w).

Definition writeFile `{ExportKernel} (filepath : string) (w : t) (fs : FileSystem)
  : bool * FileSystem :=
  match m_document w with
  | None => (false, fs)
  | Some doc =>
      let isBinary := match m_params_format w with Binary => true | Json => false end in
      match m_seqRootLabel w with
      | [] => RWGltf_CafWriter_Perform filepath isBinary doc None fs
      | labels => RWGltf_CafWriter_Perform filepath isBinary doc (Some labels) fs
      end
  end.

End OccGltfWriter.

Module OccVrmlWriter.

Section WithExportKernel.
Context `{E : ExportKernel}.

Record t := {
  m_scene : option VrmlData_Scene
}.

Definition writeFile (filepath : string) (w : t) (fs : FileSystem)
  : bool * FileSystem :=
  match m_scene w with
  | None => (false, fs)
  | Some scene =>
      let '(outs, fs) := OSD_OpenStream filepath fs in
      if outs then write_close_good filepath scene fs
      else (false, fs)
  end.

End WithExportKernel.

End OccVrmlWriter.

(** ** gui_document.cpp: the view trihedron *)

Module GuiDocumentView.

Inductive ViewTrihedronMode := Mode_None | V3dViewZBuffer | AisViewCube.

Inductive Qt_Corner :=
| TopLeftCorner | TopRightCorner | BottomLeftCorner | BottomRightCorner.

Inductive Aspect_TypeOfTriedronPosition :=
| Aspect_TOTP_CENTER | Aspect_TOTP_TOP | Aspect_TOTP_BOTTOM
| Aspect_TOTP_LEFT | Aspect_TOTP_RIGHT
| Aspect_TOTP_LEFT_LOWER | Aspect_TOTP_LEFT_UPPER
| Aspect_TOTP_RIGHT_LOWER | Aspect_TOTP_RIGHT_UPPER.

Definition ViewTrihedronMode_eqb (a b : ViewTrihedronMode) : bool :=
  match a, b with
  | Mode_None, Mode_None | V3dViewZBuffer, V3dViewZBuffer
  | AisViewCube, AisViewCube => true
  | _, _ => false
  end.

Definition Qt_Corner_eqb (a b : Qt_Corner) : bool :=
  match a, b with
  | TopLeftCorner, TopLeftCorner | TopRightCorner, TopRightCorner
  | BottomLeftCorner, BottomLeftCorner | BottomRightCorner, BottomRightCorner => true
  | _, _ => false
  end.

Definition toOccCorner (corner : Qt_Corner) : Aspect_TypeOfTriedronPosition :=
  match corner with
  | TopLeftCorner => Aspect_TOTP_LEFT_UPPER
  | TopRightCorner => Aspect_TOTP_RIGHT_UPPER
  | BottomLeftCorner => Aspect_TOTP_LEFT_LOWER
  | BottomRightCorner => Aspect_TOTP_RIGHT_LOWER
  end.

(** The [AIS_ViewCube] the document creates: what it sets on it. *)
Record AIS_ViewCube := {
  cube_BoxColor : string;
  cube_Size : Z;
  cube_FontHeight : Z;
  cube_AxesLabels : string * string * string;
  cube_Corner2d : Aspect_TypeOfTriedronPosition;
  cube_Offset2d : Z * Z;
  (** colours of the shading aspects of the X, Y and Z axes *)
  cube_AxesColors : string * string * string
}.

(** Calls on [m_v3dView] and on [m_gfxScene], recorded in order.  The
    colour, the scale and the mode of [TriedronDisplay] are constants of the
    one call site. *)
Inductive ViewCall :=
| TriedronErase
| TriedronDisplay (position : Aspect_TypeOfTriedronPosition).

Inductive CubeSceneCall :=
| addObject (cube : AIS_ViewCube)
| setObjectVisible (cubeIsNull : bool) (on : bool).

Inductive Signal :=
| viewTrihedronModeChanged (mode : ViewTrihedronMode)
| viewTrihedronCornerChanged (corner : Qt_Corner).

(** The members of [GuiDocument] these methods read and write. *)
Record t := {
  m_viewTrihedronMode : ViewTrihedronMode;
  m_viewTrihedronCorner : Qt_Corner;
  m_aisViewCube : option AIS_ViewCube;
  viewCalls : list ViewCall;
  cubeSceneCalls : list CubeSceneCall;
  emitted : list Signal
}.

(** The member initialisers. *)
Definition initial : t :=
  {| m_viewTrihedronMode := Mode_None;
     m_viewTrihedronCorner := BottomLeftCorner;
     m_aisViewCube := None;
     viewCalls := [];
     cubeSceneCalls := [];
     emitted := [] |}.

Definition view_call (c : ViewCall) (g : t) : t :=
  {| m_viewTrihedronMode := m_viewTrihedronMode g;
     m_viewTrihedronCorner := m_viewTrihedronCorner g;
     m_aisViewCube := m_aisViewCube g;
     viewCalls := viewCalls g ++ [c];
     cubeSceneCalls := cubeSceneCalls g;
     emitted := emitted g |}.

Definition scene_call (c : CubeSceneCall) (g : t) : t :=
  {| m_viewTrihedronMode := m_viewTrihedronMode g;
     m_viewTrihedronCorner := m_viewTrihedronCorner g;
     m_aisViewCube := m_aisViewCube g;
     viewCalls := viewCalls g;
     cubeSceneCalls := cubeSceneCalls g ++ [c];
     emitted := emitted g |}.

Definition set_cube (cube : option AIS_ViewCube) (g : t) : t :=
  {| m_viewTrihedronMode := m_viewTrihedronMode g;
     m_viewTrihedronCorner := m_viewTrihedronCorner g;
     m_aisViewCube := cube;
     viewCalls := viewCalls g;
     cubeSceneCalls := cubeSceneCalls g;
     emitted := emitted g |}.

Definition set_mode (mode : ViewTrihedronMode) (g : t) : t :=
  {| m_viewTrihedronMode := mode;
     m_viewTrihedronCorner := m_viewTrihedronCorner g;
     m_aisViewCube := m_aisViewCube g;
     viewCalls := viewCalls g;
     cubeSceneCalls := cubeSceneCalls g;
     emitted := emitted g |}.

Definition set_corner (corner : Qt_Corner) (g : t) : t :=
  {| m_viewTrihedronMode := m_viewTrihedronMode g;
     m_viewTrihedronCorner := corner;
     m_aisViewCube := m_aisViewCube g;
     viewCalls := viewCalls g;
     cubeSceneCalls := cubeSceneCalls g;
     emitted := emitted g |}.

Definition emit (s : Signal) (g : t) : t :=
  {| m_viewTrihedronMode := m_viewTrihedronMode g;
     m_viewTrihedronCorner := m_viewTrihedronCorner g;
     m_aisViewCube := m_aisViewCube g;
     viewCalls := viewCalls g;
     cubeSceneCalls := cubeSceneCalls g;
     emitted := emitted g ++ [s] |}.

Definition v3dViewTrihedronDisplay (corner : Qt_Corner) (g : t) : t :=
  view_call (TriedronDisplay (toOccCorner corner)) g.

(** The lambda [fnViewCubeSetVisible]. *)
Definition fnViewCubeSetVisible (on : bool) (g : t) : t :=
  scene_call (setObjectVisible (IsNull (m_aisViewCube g)) on) g.

(** [occ_7_4] tells whether the program was built against a kernel of
    version 7.4.0 or later ([OCC_VERSION_HEX >= OCC_VERSION_CHECK(7, 4, 0)]). *)
Definition setViewTrihedronMode (occ_7_4 : bool) (mode : ViewTrihedronMode) (g : t) : t :=
  if ViewTrihedronMode_eqb mode (m_viewTrihedronMode g) then g
  else
    let g :=
      match mode with
      | Mode_None =>
          let g := view_call TriedronErase g in
          fnViewCubeSetVisible false g
      | V3dViewZBuffer =>
          let g := v3dViewTrihedronDisplay (m_viewTrihedronCorner g) g in
          fnViewCubeSetVisible false g
      | AisViewCube =>
          let g :=
            if IsNull (m_aisViewCube g) && occ_7_4 then
              let aisViewCube :=
                {| cube_BoxColor := "Quantity_NOC_GRAY75";
                   cube_Size := 55;
                   cube_FontHeight := 12;
                   cube_AxesLabels := ("", "", "");
                   cube_Corner2d := toOccCorner (m_viewTrihedronCorner g);
                   cube_Offset2d := (85, 85);
                   cube_AxesColors := ("Quantity_NOC_RED2", "Quantity_NOC_GREEN2",
                                       "Quantity_NOC_BLUE2") |} in
              let g := scene_call (addObject aisViewCube) g in
              set_cube (Some aisViewCube) g
            else g in
          let g := view_call TriedronErase g in
          fnViewCubeSetVisible true g
      end in
    let g := set_mode mode g in
    emit (viewTrihedronModeChanged mode) g.

Definition setViewTrihedronCorner (corner : Qt_Corner) (g : t) : t :=
  if Qt_Corner_eqb corner (m_viewTrihedronCorner g) then g
  else
    let g :=
      match m_viewTrihedronMode g with
      | Mode_None => g
      | V3dViewZBuffer => v3dViewTrihedronDisplay corner g
      | AisViewCube =>
          match m_aisViewCube g with
          | Some cube =>
              set_cube (Some {| cube_BoxColor := cube_BoxColor cube;
                                cube_Size := cube_Size cube;
                                cube_FontHeight := cube_FontHeight cube;
                                cube_AxesLabels := cube_AxesLabels cube;
                                cube_Corner2d := toOccCorner corner;
                                cube_Offset2d := cube_Offset2d cube;
                                cube_AxesColors := cube_AxesColors cube |}) g
          | None => g
          end
      end in
    let g := set_corner corner g in
    emit (viewTrihedronCornerChanged corner) g.

(** The first statements of the constructor. *)
Definition constructed (occ_7_4 : bool) : t :=
  if occ_7_4 then
    setViewTrihedronCorner TopLeftCorner
      (setViewTrihedronMode occ_7_4 AisViewCube initial)
  else
    setViewTrihedronCorner BottomLeftCorner
      (setViewTrihedronMode occ_7_4 V3dViewZBuffer initial).

(** What a user of the object can ask of it afterwards. *)
Inductive Request :=
| SetMode (mode : ViewTrihedronMode)
| SetCorner (corner : Qt_Corner).

Definition serve (occ_7_4 : bool) (g : t) (r : Request) : t :=
  match r with
  | SetMode mode => setViewTrihedronMode occ_7_4 mode g
  | SetCorner corner => setViewTrihedronCorner corner g
  end.

Definition countAddObject (g : t) : nat :=
  List.length (filter (fun c => match c with addObject _ => true | _ => false end)
                 (cubeSceneCalls g)).

(** The view cube and the scene, along any requests. *)
Definition cubeInvariant (occ_7_4 : bool) (g : t) : Prop :=
  countAddObject g = (if IsNull (m_aisViewCube g) then 0 else 1)%nat
  /\ (occ_7_4 = false -> m_aisViewCube g = None).

(** The Z-buffer trihedron and the view, along any requests. *)
Definition viewInvariant (g : t) : Prop :=
  last (viewCalls g) TriedronErase
  = match m_viewTrihedronMode g with
    | V3dViewZBuffer => TriedronDisplay (toOccCorner (m_viewTrihedronCorner g))
    | _ => TriedronErase
    end.

End GuiDocumentView.

(** ** io_occ_vrml.cpp: the transfer *)

Module OccVrmlTransfer.

Inductive VrmlAPI_RepresentationOfShape :=
| VrmlAPI_ShadedRepresentation
| VrmlAPI_WireFrameRepresentation
| VrmlAPI_BothRepresentation.

(** What the loop of [transfer] hands to the [VrmlData_ShapeConvert]. *)
Inductive ConverterCall :=
| ConvertDocument (doc : DocumentPtr)
| AddShape (shape : TopoDS_Shape).

(** The kernel's converter and the progress scale of math_utils.h. *)
Class VrmlKernel {E : ExportKernel} := {
  (** the scene a converter built on a new [VrmlData_Scene] leaves after
      these calls and [Convert(faces, edges)] *)
  VrmlData_ShapeConvert_Convert : list ConverterCall -> bool -> bool -> VrmlData_Scene;
  (** [MathUtils::mappedValue(index, 0, size - 1, 0, 100)], as [setValue]
      receives it *)
  MathUtils_mappedValue : Z -> Z -> Z -> Z -> Z -> Z
}.

Section WithVrmlKernel.
Context {E : ExportKernel} {V : VrmlKernel} {X : XCaf}.

(** The writer: the members [writeFile] reads, and the two members that
    hold a shape representation. *)
Record t := {
  writer : OccVrmlWriter.t;
  m_shapeRepresentation : VrmlAPI_RepresentationOfShape;
  m_params_shapeRepresentation : VrmlAPI_RepresentationOfShape
}.

(** One turn of the loop: the converter calls so far, the progress values
    so far. *)
Definition transfer_item (occ_7_4 : bool) (size : Z)
    (acc : list ConverterCall * list Z) (indexed : Z * ApplicationItem)
  : list ConverterCall * list Z :=
  let '(calls, progress) := acc in
  let '(index, appItem) := indexed in
  let calls :=
    if isDocument appItem then
      match document appItem with
      | Some doc => if occ_7_4 then calls ++ [ConvertDocument doc] else calls
      | None => calls
      end
    else if isDocumentTreeNode appItem then
      match appItem with
      | Item_DocumentTreeNode _ _ label =>
          if XCaf_isShape label then calls ++ [AddShape (XCaf_shape label)] else calls
      | _ => calls
      end
    else calls in
  (calls, progress ++ [MathUtils_mappedValue index 0 (size - 1) 0 100]).

Fixpoint indexed_from {A : Type} (i : Z) (l : list A) : list (Z * A) :=
  match l with
  | [] => []
  | x :: rest => (i, x) :: indexed_from (i + 1) rest
  end.

(** [transfer]: the result, the writer, and what [progress] was told. *)
Definition transfer (occ_7_4 : bool) (spanAppItem : list ApplicationItem) (w : t)
  : bool * t * list Z :=
  let '(calls, progress) :=
    fold_left (transfer_item occ_7_4 (Z.of_nat (List.length spanAppItem)))
      (indexed_from 0 spanAppItem) ([], []) in
  let rep := m_shapeRepresentation w in
  let faces := match rep with
               | VrmlAPI_ShadedRepresentation | VrmlAPI_BothRepresentation => true
               | _ => false
               end in
  let edges := match rep with
               | VrmlAPI_WireFrameRepresentation | VrmlAPI_BothRepresentation => true
               | _ => false
               end in
  (true,
   {| writer := {| OccVrmlWriter.m_scene :=
                     Some (VrmlData_ShapeConvert_Convert calls faces edges) |};
      m_shapeRepresentation := m_shapeRepresentation w;
      m_params_shapeRepresentation := m_params_shapeRepresentation w |},
   progress).

(** [applyProperties(params)]: [params] is [Some r] when the group is the
    writer's own [Properties], holding [r]; [None] when the cast fails. *)
Definition applyProperties (params : option VrmlAPI_RepresentationOfShape) (w : t) : t :=
  match params with
  | Some r =>
      {| writer := writer w;
         m_shapeRepresentation := m_shapeRepresentation w;
         m_params_shapeRepresentation := r |}
  | None => w
  end.

(** The converter calls [transfer] is expected to make, item by item. *)
Definition callsOf (occ_7_4 : bool) (appItem : ApplicationItem) : list ConverterCall :=
  match appItem with
  | Item_Invalid => []
  | Item_Document doc => if occ_7_4 then [ConvertDocument doc] else []
  | Item_DocumentTreeNode _ _ label =>
      if XCaf_isShape label then [AddShape (XCaf_shape label)] else []
  end.

End WithVrmlKernel.

End OccVrmlTransfer.

(** ** io_occ_step.cpp *)

Module OccStepReader.

(** The values of [Encoding] the switch of [fnOccEncoding] names. *)
Inductive Encoding :=
| Shift_JIS | EUC | ANSI | GB | UTF8
| CP_1250 | CP_1251 | CP_1252 | CP_1253 | CP_1254
| CP_1255 | CP_1256 | CP_1257 | CP_1258
| ISO_8859_1 | ISO_8859_2 | ISO_8859_3 | ISO_8859_4 | ISO_8859_5
| ISO_8859_6 | ISO_8859_7 | ISO_8859_8 | ISO_8859_9.

(** The lambda [fnOccEncoding] of [changeStaticVariables]; [None] is
    [Q_UNREACHABLE()].  [occ_7_5] tells whether the kernel is of version
    7.5.0 or later. *)
Definition fnOccEncoding (occ_7_5 : bool) (code : Encoding) : option string :=
  match code with
  | Shift_JIS => Some "SJIS"
  | EUC => Some "EUC"
  | ANSI => Some "ANSI"
  | GB => Some "GB"
  | UTF8 => Some "UTF8"
  | other =>
      if occ_7_5 then
        match other with
        | CP_1250 => Some "CP1250"
        | CP_1251 => Some "CP1251"
        | CP_1252 => Some "CP1252"
        | CP_1253 => Some "CP1253"
        | CP_1254 => Some "CP1254"
        | CP_1255 => Some "CP1255"
        | CP_1256 => Some "CP1256"
        | CP_1257 => Some "CP1257"
        | CP_1258 => Some "CP1258"
        | ISO_8859_1 => Some "iso8859-1"
        | ISO_8859_2 => Some "iso8859-2"
        | ISO_8859_3 => Some "iso8859-3"
        | ISO_8859_4 => Some "iso8859-4"
        | ISO_8859_5 => Some "iso8859-5"
        | ISO_8859_6 => Some "iso8859-6"
        | ISO_8859_7 => Some "iso8859-7"
        | ISO_8859_8 => Some "iso8859-8"
        | ISO_8859_9 => Some "iso8859-9"
        | _ => None
        end
      else None
  end.

Definition strKeyReadStepCodePage (occ_7_5 : bool) : string :=
  if occ_7_5 then "read.step.codepage" else "read.stepcaf.codepage".

(** [OccStepReader::Parameters]; the enumerations by their [int] value. *)
Record Parameters := {
  productContext : Z;
  assemblyLevel : Z;
  preferredShapeRepresentation : Z;
  readShapeAspect : bool;
  readSubShapesNames : bool;
  encoding : Encoding
}.

(** Modelled from the spec: a [PropertyEnumeration] or [PropertyBool]
    (property_enumeration.h, property_builtins.h; not among the embedded
    files) holds one value, which [setValue] replaces and [value()] and
    [valueAs<E>()] return.  [Properties] is then the record of the values
    of its six properties. *)
Record Properties := {
  prop_productContext : Z;
  prop_assemblyLevel : Z;
  prop_preferredShapeRepresentation : Z;
  prop_readShapeAspect : bool;
  prop_readSubShapesNames : bool;
  prop_encoding : Encoding
}.

(** [Properties::restoreDefaults]; [params] is a default-constructed
    [OccStepReader::Parameters]. *)
Definition restoreDefaults (params : Parameters) (p : Properties) : Properties :=
  {| prop_productContext := productContext params;
     prop_assemblyLevel := assemblyLevel params;
     prop_preferredShapeRepresentation := prop_preferredShapeRepresentation p;
     prop_readShapeAspect := readShapeAspect params;
     prop_readSubShapesNames := readSubShapesNames params;
     prop_encoding := encoding params |}.

(** [applyProperties(group)]: [group] is [Some p] when the cast to
    [Properties] succeeds. *)
Definition applyProperties (group : option Properties) (m_params : Parameters)
  : Parameters :=
  match group with
  | Some ptr =>
      {| productContext := prop_productContext ptr;
         assemblyLevel := prop_assemblyLevel ptr;
         preferredShapeRepresentation := prop_preferredShapeRepresentation ptr;
         readShapeAspect := prop_readShapeAspect ptr;
         readSubShapesNames := prop_readSubShapesNames ptr;
         encoding := prop_encoding ptr |}
  | None => m_params
  end.

(** A value handed to [OccStaticVariablesRollback::change]. *)
Inductive StaticValue :=
| IntValue (i : Z)
| StrValue (s : option string).

(** [changeStaticVariables]: the changes it asks of the rollback object,
    in order.  A [StrValue None] is where the C++ runs into
    [Q_UNREACHABLE()]. *)
Definition changeStaticVariables (occ_7_5 : bool) (m_params : Parameters)
  : list (string * StaticValue) :=
  [ ("read.step.product.context", IntValue (productContext m_params));
    ("read.step.assembly.level", IntValue (assemblyLevel m_params));
    ("read.step.shape.repr", IntValue (preferredShapeRepresentation m_params));
    ("read.step.shape.aspect", IntValue (if readShapeAspect m_params then 1 else 0));
    ("read.stepcaf.subshapes.name",
       IntValue (if readSubShapesNames m_params then 1 else 0));
    (strKeyReadStepCodePage occ_7_5,
       StrValue (fnOccEncoding occ_7_5 (encoding m_params))) ].

End OccStepReader.

Module OccStepWriter.

Record Parameters := {
  schema : Z;
  lengthUnit : Z;
  assemblyMode : Z;
  freeVertexMode : Z;
  writeParametricCurves : bool;
  writeSubShapesNames : bool
}.

(** The values of the six properties of [OccStepWriter::Properties], under
    the same reading of a property as for the reader. *)
Record Properties := {
  prop_schema : Z;
  prop_lengthUnit : Z;
  prop_assemblyMode : Z;
  prop_freeVertexMode : Z;
  prop_writePCurves : bool;
  prop_writeSubShapesNames : bool
}.

Definition restoreDefaults (params : Parameters) (p : Properties) : Properties :=
  {| prop_schema := schema params;
     prop_lengthUnit := lengthUnit params;
     prop_assemblyMode := assemblyMode params;
     prop_freeVertexMode := freeVertexMode params;
     prop_writePCurves := writeParametricCurves params;
     prop_writeSubShapesNames := writeSubShapesNames params |}.

Definition applyProperties (group : option Properties) (m_params : Parameters)
  : Parameters :=
  match group with
  | Some ptr =>
      {| schema := prop_schema ptr;
         lengthUnit := prop_lengthUnit ptr;
         assemblyMode := prop_assemblyMode ptr;
         freeVertexMode := prop_freeVertexMode ptr;
         writeParametricCurves := prop_writePCurves ptr;
         writeSubShapesNames := prop_writeSubShapesNames ptr |}
  | None => m_params
  end.

End OccStepWriter.

(** ** Vocabulary of the properties *)

(** The first item of a span that is a document or a document tree node. *)
Definition isValidItem (appItem : ApplicationItem) : bool :=
  isDocument appItem || isDocumentTreeNode appItem.

Definition firstValidItem (span : list ApplicationItem) : option ApplicationItem :=
  find isValidItem span.

(** The labels of the tree-node items of [span] that belong to document
    [doc], in the order of the span. *)
Fixpoint treeNodeLabelsOf (doc : DocumentPtr) (span : list ApplicationItem)
  : list TDF_Label :=
  match span with
  | [] => []
  | Item_DocumentTreeNode d _ label :: rest =>
      if N.eqb d doc then label :: treeNodeLabelsOf doc rest
      else treeNodeLabelsOf doc rest
  | _ :: rest => treeNodeLabelsOf doc rest
  end.

(** [value] is one of the values an enumeration lists. *)
Definition listed (e : Enumeration) (value : Z) : Prop :=
  In value (map item_value e).

Section DisplayModeVocabulary.
Context {G : GraphicsEntityApi}.

(** What the round trip needs of the two accessors of [GraphicsEntity]
    whose bodies are in graphics_entity.cpp: at this entity, [displayMode()]
    reads what [setDisplayMode(mode)] set, and setting the mode does not
    hand the entity to another driver. *)
Definition accessors_agree (mode : Z) (w : World) : Prop :=
  GraphicsEntity_displayMode (GraphicsEntity_setDisplayMode mode w) = mode
  /\ m_driverPtr (entity (GraphicsEntity_setDisplayMode mode w)) = m_driverPtr (entity w).

End DisplayModeVocabulary.

Section SideTableVocabulary.
Context {K : GuiKernel}.
Import GuiDocument.

Definition itemIds (g : GuiDocument.t) : list TreeNodeId :=
  map entityTreeNodeId (m_vecGraphicsItem g).

(** The box of the presentation object of an item. *)
Definition itemBox (item : GraphicsItem) : Bnd_Box :=
  GraphicsUtils_AisObject_boundingBox (m_aisObject (graphicsEntity item)).

(** How many items of the table carry [id]. *)
Definition countItems (id : TreeNodeId) (g : GuiDocument.t) : nat :=
  List.length (filter (fun item => N.eqb (entityTreeNodeId item) id) (m_vecGraphicsItem g)).

(** Everything the object was told, the constructor's loop included: the
    entities of the document it was built on, then the signals. *)
Definition history (doc0 : Document) (signals : list DocumentSignal)
  : list DocumentSignal :=
  map (entityAdded doc0) (entityTreeNodeIds doc0) ++ signals.

(** The discipline of [Document]: the ids of the entities it holds are
    distinct, so an entity is announced under an id that no entity alive
    carries.  [live] are the ids of the entities alive. *)
Fixpoint documentProtocol (live : list TreeNodeId) (signals : list DocumentSignal)
  : bool :=
  match signals with
  | [] => true
  | entityAdded _ id :: rest =>
      negb (existsb (N.eqb id) live) && documentProtocol (id :: live) rest
  | entityAboutToBeDestroyed id :: rest =>
      documentProtocol (filter (fun j => negb (N.eqb j id)) live) rest
  end.

(** [mapGraphics] on this node yields a presentation object. *)
Definition producesAisObject (doc : Document) (id : TreeNodeId) : bool :=
  negb (IsNull (m_aisObject
                  (GraphicsEntityDriverTable_createEntity (DocumentTreeNode_label doc id)))).

(** The ids for which [mapGraphics] produced a presentation object and
    that were not removed since. *)
Definition mappedStep (m : TreeNodeId -> bool) (s : DocumentSignal) : TreeNodeId -> bool :=
  fun id =>
    match s with
    | entityAdded doc i =>
        if N.eqb i id then m id || producesAisObject doc i else m id
    | entityAboutToBeDestroyed i =>
        if N.eqb i id then false else m id
    end.

Definition mapped (past : list DocumentSignal) : TreeNodeId -> bool :=
  fold_left mappedStep past (fun _ => false).

(** The invariant: the ids of the table are distinct and alive, every item
    has a presentation object, and [m] tells which ids are in the table. *)
Definition tableInvariant (live : list TreeNodeId) (m : TreeNodeId -> bool)
    (items : list GraphicsItem) : Prop :=
  NoDup (map entityTreeNodeId items)
  /\ (forall i, In i (map entityTreeNodeId items) -> In i live)
  /\ (forall it, In it items -> m_aisObject (graphicsEntity it) <> None)
  /\ (forall i, m i = true <-> In i (map entityTreeNodeId items)).

End SideTableVocabulary.

(** ** Instances of the interfaces, to run the code on concrete inputs *)

(** The kernel's [XCAFDoc_ShapeTool]: a label is a shape when it carries a
    [TNaming_NamedShape], whose shape it then yields. *)
Definition XCAFDoc_ShapeTool : XCaf :=
  {| XCaf_isShape := fun l => CafUtils.hasAttribute l TNaming_NamedShape_ID;
     XCaf_shape := fun l =>
       match TDF_Label_FindAttribute TNaming_NamedShape_ID l with
       | Some (TNaming_NamedShape s) => s
       | _ => {| ShapeType := TopAbs_SHAPE |}
       end |}.

(** A file system that keeps what was written, newest first. *)
Definition ListFileSystem : ExportKernel :=
  {| FileSystem := list (string * string);
     VrmlData_Scene := string;
     RWGltf_CafWriter_Perform := fun path _ _ _ fs => (true, (path, "glTF"%string) :: fs);
     OSD_OpenStream := fun _ fs => (true, fs);
     write_close_good := fun path scene fs => (true, (path, scene) :: fs) |}.

Definition label_triangulation_only : TDF_Label :=
  {| labelEntry := [0%N; 1%N; 1%N];
     labelAttributes := [TDataStd_Name "mesh"; TDataXtd_Triangulation (Some 7%N)] |}.

Definition label_face : TDF_Label :=
  {| labelEntry := [0%N; 1%N; 2%N];
     labelAttributes := [TNaming_NamedShape {| ShapeType := TopAbs_FACE |}] |}.

Definition label_solid : TDF_Label :=
  {| labelEntry := [0%N; 1%N; 3%N];
     labelAttributes := [TDataStd_Name "part";
                         TNaming_NamedShape {| ShapeType := TopAbs_SOLID |}] |}.

(** Entity accessors that keep the display mode in the presentation
    object, and a scene that reports its drawer's hidden-line flag. *)
Definition AisObjectDisplayMode : GraphicsEntityApi :=
  {| GraphicsEntity_displayMode := fun w =>
       match m_aisObject (entity w) with
       | Some o => DisplayMode o
       | None => -1
       end;
     GraphicsEntity_setDisplayMode := fun mode w =>
       set_entity
         (GraphicsEntityDriver_setEntityAisObject (entity w)
            (option_map (AIS_SetDisplayMode mode) (m_aisObject (entity w)))) w;
     GraphicsScene_hiddenLineDrawingOn := fun s =>
       DrawHiddenLine (defaultPrs3dDrawer s) |}.

Definition scene_empty : GraphicsScene :=
  {| defaultPrs3dDrawer := {| TypeOfHLR := Prs3d_TOH_NotSet; DrawHiddenLine := false |};
     DefinedViews := [ {| ComputedMode := false |} ];
     sceneCalls := [] |}.

(** An entity of the mesh driver living at address 32, shown shaded. *)
Definition world_mesh_entity : World :=
  {| entity :=
       {| m_label := Some label_triangulation_only;
          m_driverPtr := Some 32%N;
          m_aisObject :=
            Some {| aisClass := MeshVS_Mesh 7%N;
                    DisplayMode := MeshVS_DMF_Shading;
                    FaceBoundaryDraw := false;
                    FaceBoundaryAspect := None;
                    IsoOnTriangulation := false |};
          m_gfxScene := Some 64%N |};
     scene := scene_empty |}.

(** A one-axis kernel for [GuiDocument]: a box is an interval, void when
    [None]; the only driver of the table is the shape driver at address 16;
    every tree node gets a mapping, which collects the owners it is given. *)
Definition interval_add (box other : option (Z * Z)) : option (Z * Z) :=
  match other, box with
  | None, _ => box
  | Some _, None => other
  | Some (lo, hi), Some (l, h) => Some (Z.min l lo, Z.max h hi)
  end.

Definition interval_of (obj : option AIS_InteractiveObject) : option (Z * Z) :=
  match obj with
  | None => None
  | Some o =>
      match aisClass o with
      | XCAFPrs_AISObject label =>
          let x := Z.of_N (last (labelEntry label) 0%N) in Some (x, x + 1)
      | MeshVS_Mesh n => Some (Z.of_N n, Z.of_N n + 1)
      end
  end.

Definition IntervalKernel : GuiKernel :=
  {| Bnd_Box := option (Z * Z);
     Bnd_Box_void := None;
     BndUtils_add := interval_add;
     GraphicsUtils_AisObject_boundingBox := interval_of;
     GraphicsEntityDriverTable_createEntity := fun label =>
       match label with
       | Some l =>
           @GraphicsShapeEntityDriver.createEntity XCAFDoc_ShapeTool
             (GraphicsShapeEntityDriver.new 16%N) l
       | None => GraphicsEntity_default
       end;
     GraphicsTreeNodeMapping := list N;
     createMapping := fun _ _ => Some [];
     selectionMode := fun _ => 0;
     GraphicsOwnerPtr := N;
     GraphicsScene_owners := fun _ _ _ => [1%N; 2%N];
     mapGraphicsOwner := fun ptr m => (negb (existsb (N.eqb ptr) m), ptr :: m) |}.

(** A document with a solid (node 1), a mesh (node 2) and a face (node 3). *)
Definition document_three_entities : Document :=
  {| entityTreeNodeIds := [1%N; 2%N; 3%N];
     DocumentTreeNode_label := fun id =>
       if N.eqb id 1 then Some label_solid
       else if N.eqb id 2 then Some label_triangulation_only
       else if N.eqb id 3 then Some label_face
       else None |}.

(** A kernel in which no shape has a [BRep_TFace]. *)
Definition NoTFace : BRepKernel :=
  {| BRep_TFace := unit;
     BRep_TFace_DownCast := fun _ => None;
     BRep_TFace_Triangulation := fun _ => None |}.

Section ReachableVocabulary.
Context {K : GuiKernel}.
Import GuiDocument.

(** What holds of every object the constructor and the signals can
    produce: the box is the fold over the table, every item has a
    presentation object and points to the scene of the document, and the
    last signal emitted, if any, carries the box. *)
Definition wellFormed (scenePtr : Address) (g : GuiDocument.t) : Prop :=
  gfxScenePtr g = scenePtr
  /\ m_gpxBoundingBox g
     = fold_left BndUtils_add (map itemBox (m_vecGraphicsItem g)) Bnd_Box_void
  /\ (forall item, In item (m_vecGraphicsItem g) ->
        IsNull (m_aisObject (graphicsEntity item)) = false
        /\ GraphicsEntity_graphicsScene (graphicsEntity item) = Some scenePtr)
  /\ last (emitted g) (graphicsBoundingBoxChanged (m_gpxBoundingBox g))
     = graphicsBoundingBoxChanged (m_gpxBoundingBox g).

End ReachableVocabulary.

(** Whether a representation asks for faces, and for edges. *)
Definition facesOf (rep : OccVrmlTransfer.VrmlAPI_RepresentationOfShape) : bool :=
  match rep with OccVrmlTransfer.VrmlAPI_WireFrameRepresentation => false | _ => true end.

Definition edgesOf (rep : OccVrmlTransfer.VrmlAPI_RepresentationOfShape) : bool :=
  match rep with OccVrmlTransfer.VrmlAPI_ShadedRepresentation => false | _ => true end.

(** A kernel whose scene is the list of converter calls with the two
    flags, to watch the transfer at work. *)
Definition RecordingFileSystem : ExportKernel :=
  {| FileSystem := list string;
     VrmlData_Scene := list OccVrmlTransfer.ConverterCall * bool * bool;
     RWGltf_CafWriter_Perform := fun path _ _ _ fs => (true, path :: fs);
     OSD_OpenStream := fun _ fs => (true, fs);
     write_close_good := fun path _ fs => (true, path :: fs) |}.

Definition RecordingConverter : @OccVrmlTransfer.VrmlKernel RecordingFileSystem :=
  @OccVrmlTransfer.Build_VrmlKernel RecordingFileSystem
    (fun calls faces edges => (calls, faces, edges))
    (fun index _ outOf _ _ => index - outOf).

(** The encodings every kernel version knows. *)
Definition isBaseEncoding (code : OccStepReader.Encoding) : bool :=
  match code with
  | OccStepReader.Shift_JIS | OccStepReader.EUC | OccStepReader.ANSI
  | OccStepReader.GB | OccStepReader.UTF8 => true
  | _ => false
  end.


(* ================================================================== *)
(** * Part II.  Properties *)
(* ================================================================== *)

Unset Implicit Arguments.

(** ** The entity drivers: which labels they support *)

Section DriverSupport.
Context {X : XCaf}.

(** C1. [GraphicsShapeEntityDriver::supportStatus] answers [Complete] for a
    label that is a shape and [None] for any other label; so a label with a
    [TDataXtd_Triangulation] attribute that is not a shape gets [None]. *)
Theorem shape_supportStatus_spec (label : TDF_Label) :
  GraphicsShapeEntityDriver.supportStatus label
    = (if XCaf_isShape label then Support_Complete else Support_None)
  /\ (CafUtils.hasAttribute_TDataXtd_Triangulation label = true ->
      XCaf_isShape label = false ->
      GraphicsShapeEntityDriver.supportStatus label = Support_None).
Proof.
  unfold GraphicsShapeEntityDriver.supportStatus.
  split.
  - destruct (XCaf_isShape label); [reflexivity|].
    now destruct (CafUtils.hasAttribute_TDataXtd_Triangulation label).
  - intros Htri Hshape. now rewrite Hshape, Htri.
Qed.

(** C2. [GraphicsMeshEntityDriver::supportStatus] answers [Complete] for a
    label with a [TDataXtd_Triangulation] attribute; otherwise [Partial] for
    a shape of type [TopAbs_FACE]; otherwise [None]. *)
Theorem mesh_supportStatus_spec (label : TDF_Label) :
  GraphicsMeshEntityDriver.supportStatus label
    = if CafUtils.hasAttribute_TDataXtd_Triangulation label then Support_Complete
      else if XCaf_isShape label
                && TopAbs_ShapeEnum_eqb (ShapeType (XCaf_shape label)) TopAbs_FACE
           then Support_Partial
           else Support_None.
Proof.
  unfold GraphicsMeshEntityDriver.supportStatus.
  destruct (CafUtils.hasAttribute_TDataXtd_Triangulation label); [reflexivity|].
  destruct (XCaf_isShape label); [|reflexivity].
  now destruct (TopAbs_ShapeEnum_eqb _ _).
Qed.

(** C3. [GraphicsShapeEntityDriver::createEntity] returns an entity that
    stores the label and points to the driver, and whose AIS object is
    non-null exactly when the label is a shape. *)
Theorem shape_createEntity_spec (drv : GraphicsEntityDriver) (label : TDF_Label) :
  let e := GraphicsShapeEntityDriver.createEntity drv label in
  m_label e = Some label
  /\ m_driverPtr e = Some (this drv)
  /\ IsNull (m_aisObject e) = negb (XCaf_isShape label)
  /\ (m_aisObject e <> None <-> XCaf_isShape label = true).
Proof.
  unfold GraphicsShapeEntityDriver.createEntity.
  destruct (XCaf_isShape label) eqn:Hs; cbn.
  - repeat split; try reflexivity; intros; congruence.
  - assert (He : forall e : GraphicsEntity,
               (if CafUtils.hasAttribute_TDataXtd_Triangulation label then e else e) = e)
      by (intro; now destruct (CafUtils.hasAttribute_TDataXtd_Triangulation label)).
    rewrite He; cbn.
    repeat split; try reflexivity; intros; congruence.
Qed.

End DriverSupport.

(** A triangulation-only label, under the kernel's shape tool. *)
Lemma shape_supportStatus_witness :
  CafUtils.hasAttribute_TDataXtd_Triangulation label_triangulation_only = true
  /\ @XCaf_isShape XCAFDoc_ShapeTool label_triangulation_only = false
  /\ @GraphicsShapeEntityDriver.supportStatus XCAFDoc_ShapeTool label_triangulation_only
     = Support_None.
Proof.
  split; [reflexivity|]. split; [reflexivity|].
  apply (proj2 (@shape_supportStatus_spec XCAFDoc_ShapeTool label_triangulation_only));
    reflexivity.
Defined.

Example mesh_supportStatus_face :
  @GraphicsMeshEntityDriver.supportStatus XCAFDoc_ShapeTool label_face = Support_Partial.
Proof. reflexivity. Qed.

Example mesh_supportStatus_solid :
  @GraphicsMeshEntityDriver.supportStatus XCAFDoc_ShapeTool label_solid = Support_None.
Proof. reflexivity. Qed.

Example shape_createEntity_triangulation_only :
  m_aisObject (@GraphicsShapeEntityDriver.createEntity XCAFDoc_ShapeTool
                 (GraphicsShapeEntityDriver.new 16%N) label_triangulation_only) = None.
Proof. reflexivity. Qed.

(** ** The exporters *)

Section Exporters.
Context {E : ExportKernel}.

(** C7. Writing before a transfer has succeeded fails and writes nothing:
    [OccVrmlWriter::writeFile] returns [false] when its scene is null and
    [OccGltfWriter::writeFile] returns [false] when its document is null;
    the file system is left as it was. *)
Theorem writeFile_before_transfer
    (vrml : OccVrmlWriter.t) (gltf : OccGltfWriter.t)
    (filepath : string) (fs : FileSystem) :
  (OccVrmlWriter.m_scene vrml = None ->
   OccVrmlWriter.writeFile filepath vrml fs = (false, fs))
  /\ (OccGltfWriter.m_document gltf = None ->
      OccGltfWriter.writeFile filepath gltf fs = (false, fs)).
Proof.
  split; intros Hnull.
  - unfold OccVrmlWriter.writeFile. now rewrite Hnull.
  - unfold OccGltfWriter.writeFile. now rewrite Hnull.
Qed.

(** A glTF transfer that fails leaves a writer that cannot write. *)
Lemma gltf_writeFile_after_failed_transfer
    (span : list ApplicationItem) (w : OccGltfWriter.t)
    (filepath : string) (fs : FileSystem) :
  fst (OccGltfWriter.transfer span w) = false ->
  OccGltfWriter.writeFile filepath (snd (OccGltfWriter.transfer span w)) fs = (false, fs).
Proof.
  unfold OccGltfWriter.transfer, OccGltfWriter.writeFile.
  destruct (OccGltfWriter.m_document (fold_left _ _ _)) eqn:Hd; cbn; rewrite ?Hd;
    [discriminate | reflexivity].
Qed.

End Exporters.

Lemma writeFile_before_transfer_witness :
  @OccVrmlWriter.writeFile ListFileSystem "out.wrl"
     {| OccVrmlWriter.m_scene := None |} [] = (false, [])
  /\ @OccGltfWriter.writeFile ListFileSystem "out.gltf"
       {| OccGltfWriter.m_document := None;
          OccGltfWriter.m_seqRootLabel := [];
          OccGltfWriter.m_params_format := OccGltfWriter.Json |} [] = (false, []).
Proof.
  split.
  - apply (proj1 (@writeFile_before_transfer ListFileSystem
                    {| OccVrmlWriter.m_scene := None |}
                    {| OccGltfWriter.m_document := None;
                       OccGltfWriter.m_seqRootLabel := [];
                       OccGltfWriter.m_params_format := OccGltfWriter.Json |}
                    "out.wrl" [])).
    reflexivity.
  - apply (proj2 (@writeFile_before_transfer ListFileSystem
                    {| OccVrmlWriter.m_scene := None |}
                    {| OccGltfWriter.m_document := None;
                       OccGltfWriter.m_seqRootLabel := [];
                       OccGltfWriter.m_params_format := OccGltfWriter.Json |}
                    "out.gltf" [])).
    reflexivity.
Defined.

(** With a scene, the same call does write. *)
Example vrml_writeFile_with_scene :
  @OccVrmlWriter.writeFile ListFileSystem "out.wrl"
     (@OccVrmlWriter.Build_t ListFileSystem (Some "#VRML"%string)) []
  = (true, [("out.wrl", "#VRML")]%string).
Proof. reflexivity. Qed.

(** *** [OccGltfWriter::transfer] *)

Section GltfTransfer.
Import OccGltfWriter.

(** Once the document is chosen the loop keeps it, and appends the labels of
    its tree nodes. *)
Lemma transfer_loop_document_set (doc : DocumentPtr) (span : list ApplicationItem) :
  forall w, m_document w = Some doc ->
    m_document (fold_left transfer_item span w) = Some doc
    /\ m_seqRootLabel (fold_left transfer_item span w)
       = m_seqRootLabel w ++ treeNodeLabelsOf doc span.
Proof.
  induction span as [|a rest IH]; intros w Hw; cbn [fold_left treeNodeLabelsOf].
  - now rewrite app_nil_r.
  - destruct a as [|d|d id label].
    + replace (transfer_item w Item_Invalid) with w by reflexivity.
      now apply IH.
    + replace (transfer_item w (Item_Document d)) with w
        by (unfold transfer_item; cbn; now rewrite Hw).
      now apply IH.
    + destruct (N.eqb d doc) eqn:Hd.
      * replace (transfer_item w (Item_DocumentTreeNode d id label))
          with (set_seqRootLabel (m_seqRootLabel w ++ [label]) w)
          by (unfold transfer_item; cbn; rewrite Hw; cbn; rewrite Hw; cbn;
              now rewrite Hd).
        destruct (IH (set_seqRootLabel (m_seqRootLabel w ++ [label]) w) Hw) as [H1 H2].
        split; [exact H1|]. rewrite H2; cbn. now rewrite <- app_assoc.
      * replace (transfer_item w (Item_DocumentTreeNode d id label)) with w
          by (unfold transfer_item; cbn; rewrite Hw; cbn; rewrite Hw; cbn;
              now rewrite Hd).
        now apply IH.
Qed.

(** While no document is chosen no label is collected; the first valid item
    chooses the document. *)
Lemma transfer_loop_document_null (span : list ApplicationItem) :
  forall w, m_document w = None ->
    match firstValidItem span with
    | None =>
        m_document (fold_left transfer_item span w) = None
        /\ m_seqRootLabel (fold_left transfer_item span w) = m_seqRootLabel w
    | Some first =>
        exists doc, document first = Some doc
        /\ m_document (fold_left transfer_item span w) = Some doc
        /\ m_seqRootLabel (fold_left transfer_item span w)
           = m_seqRootLabel w ++ treeNodeLabelsOf doc span
    end.
Proof.
  unfold firstValidItem.
  induction span as [|a rest IH]; intros w Hw; cbn [fold_left find].
  - now split.
  - destruct a as [|d|d id label]; cbn [isValidItem isDocument isDocumentTreeNode orb].
    + replace (transfer_item w Item_Invalid) with w by reflexivity.
      specialize (IH w Hw). destruct (find isValidItem rest); exact IH.
    + exists d. split; [reflexivity|].
      assert (Hstep : transfer_item w (Item_Document d) = set_document (Some d) w)
        by (unfold transfer_item; cbn; now rewrite Hw).
      rewrite Hstep.
      destruct (transfer_loop_document_set d rest (set_document (Some d) w) eq_refl)
        as [H1 H2].
      split; [exact H1|]. exact H2.
    + exists d. split; [reflexivity|].
      assert (Hstep : transfer_item w (Item_DocumentTreeNode d id label)
                      = set_seqRootLabel (m_seqRootLabel w ++ [label])
                          (set_document (Some d) w)).
      { unfold transfer_item; cbn. rewrite Hw; cbn. now rewrite N.eqb_refl. }
      rewrite Hstep.
      destruct (transfer_loop_document_set d rest
                  (set_seqRootLabel (m_seqRootLabel w ++ [label])
                     (set_document (Some d) w)) eq_refl) as [H1 H2].
      split; [exact H1|]. rewrite H2; cbn. rewrite N.eqb_refl.
      now rewrite <- app_assoc.
Qed.

(** C10. [OccGltfWriter::transfer] returns [false] exactly when the span has
    no item that is a document or a document tree node.  Otherwise it
    returns [true], the writer's document is the document of the first such
    item, and the root labels are the labels of the tree-node items of that
    document, in order; tree nodes of other documents are left out.
    Whatever the writer held before the call is discarded. *)
Theorem gltf_transfer_spec (span : list ApplicationItem) (w : OccGltfWriter.t) :
  let '(ok, w') := transfer span w in
  ok = existsb isValidItem span
  /\ match firstValidItem span with
     | None => ok = false /\ m_document w' = None /\ m_seqRootLabel w' = []
     | Some first =>
         ok = true
         /\ m_document w' = document first
         /\ exists doc, document first = Some doc
            /\ m_seqRootLabel w' = treeNodeLabelsOf doc span
     end.
Proof.
  unfold transfer.
  assert (Hex : existsb isValidItem span
                = match firstValidItem span with Some _ => true | None => false end).
  { unfold firstValidItem. clear w. induction span as [|a rest IH]; [reflexivity|].
    cbn. destruct (isValidItem a); [reflexivity | exact IH]. }
  pose proof (transfer_loop_document_null span
                (set_seqRootLabel [] (set_document None w)) eq_refl) as H.
  rewrite Hex.
  destruct (firstValidItem span) as [first|].
  - destruct H as (doc & Hdoc & Hd & Hl). rewrite Hd. cbn.
    split; [reflexivity|]. split; [reflexivity|]. split; [now rewrite Hdoc|].
    exists doc. split; [exact Hdoc|]. exact Hl.
  - destruct H as [Hd Hl]. rewrite Hd. cbn.
    split; [reflexivity|]. split; [reflexivity|]. split; [exact Hd | exact Hl].
Qed.

End GltfTransfer.

(** Two documents in one selection: the first valid item decides. *)
Example gltf_transfer_two_documents :
  OccGltfWriter.transfer
    [ Item_Invalid;
      Item_DocumentTreeNode 100%N 1%N label_face;
      Item_DocumentTreeNode 200%N 1%N label_solid;
      Item_Document 200%N;
      Item_DocumentTreeNode 100%N 2%N label_triangulation_only ]
    {| OccGltfWriter.m_document := Some 300%N;
       OccGltfWriter.m_seqRootLabel := [label_solid];
       OccGltfWriter.m_params_format := OccGltfWriter.Binary |}
  = (true,
     {| OccGltfWriter.m_document := Some 100%N;
        OccGltfWriter.m_seqRootLabel := [label_face; label_triangulation_only];
        OccGltfWriter.m_params_format := OccGltfWriter.Binary |}).
Proof. reflexivity. Qed.

Example gltf_transfer_nothing_valid :
  fst (OccGltfWriter.transfer [Item_Invalid; Item_Invalid]
         {| OccGltfWriter.m_document := Some 300%N;
            OccGltfWriter.m_seqRootLabel := [label_solid];
            OccGltfWriter.m_params_format := OccGltfWriter.Json |}) = false.
Proof. reflexivity. Qed.

(** ** Display modes: the guards and the mesh round trip *)

Lemma findIndex_from_not_listed (e : Enumeration) (value : Z) :
  forall i, ~ listed e value -> Enumeration_findIndex_from i e value = -1.
Proof.
  unfold listed.
  induction e as [|it rest IH]; intros i Hn; cbn; [reflexivity|].
  destruct (item_value it =? value) eqn:Hv.
  - exfalso. apply Hn. left. now apply Z.eqb_eq.
  - apply IH. intro Hin. apply Hn. now right.
Qed.

Lemma findIndex_from_listed (e : Enumeration) (value : Z) :
  forall i, 0 <= i -> listed e value -> 0 <= Enumeration_findIndex_from i e value.
Proof.
  unfold listed.
  induction e as [|it rest IH]; intros i Hi Hin; cbn in *; [contradiction|].
  destruct (item_value it =? value) eqn:Hv; [exact Hi|].
  apply IH; [lia|]. destruct Hin as [Heq|Hin]; [|exact Hin].
  apply Z.eqb_neq in Hv. contradiction.
Qed.

Lemma option_Address_eqb_spec (a b : option Address) :
  option_Address_eqb a b = true <-> a = b.
Proof.
  destruct a as [x|], b as [y|]; cbn; split; intro H;
    try discriminate; try reflexivity.
  - apply N.eqb_eq in H. now subst.
  - injection H as ->. apply N.eqb_refl.
Qed.

Section DisplayModeGuards.
Context {G : GraphicsEntityApi}.

Lemma throwIf_differentDriver_throws (drv : GraphicsEntityDriver) (w : World) :
  m_driverPtr (entity w) <> Some (this drv) ->
  GraphicsEntityDriver_throwIf_differentDriver drv w
  = (inl (std_invalid_argument "Invalid driver for graphics entity"), w).
Proof.
  intro Hd. unfold GraphicsEntityDriver_throwIf_differentDriver, bind, get.
  destruct (option_Address_eqb (m_driverPtr (entity w)) (Some (this drv))) eqn:Heq.
  - apply option_Address_eqb_spec in Heq. contradiction.
  - reflexivity.
Qed.

Lemma throwIf_differentDriver_passes (drv : GraphicsEntityDriver) (w : World) :
  m_driverPtr (entity w) = Some (this drv) ->
  GraphicsEntityDriver_throwIf_differentDriver drv w = (inr tt, w).
Proof.
  intro Hd. unfold GraphicsEntityDriver_throwIf_differentDriver, bind, get.
  rewrite Hd. cbn. now rewrite N.eqb_refl.
Qed.

Lemma throwIf_invalidDisplayMode_throws {S : Type}
    (drv : GraphicsEntityDriver) (mode : Z) (s : S) :
  ~ listed (displayModes drv) mode ->
  GraphicsEntityDriver_throwIf_invalidDisplayMode drv mode s
  = (inl (std_invalid_argument "Invalid display mode"), s).
Proof.
  intro Hn. unfold GraphicsEntityDriver_throwIf_invalidDisplayMode, Enumeration_findIndex.
  now rewrite (findIndex_from_not_listed _ _ 0 Hn).
Qed.

Lemma throwIf_invalidDisplayMode_passes {S : Type}
    (drv : GraphicsEntityDriver) (mode : Z) (s : S) :
  listed (displayModes drv) mode ->
  GraphicsEntityDriver_throwIf_invalidDisplayMode drv mode s = (inr tt, s).
Proof.
  intro Hin. unfold GraphicsEntityDriver_throwIf_invalidDisplayMode, Enumeration_findIndex.
  pose proof (findIndex_from_listed _ _ 0 (Z.le_refl 0) Hin) as Hge.
  destruct (Enumeration_findIndex_from 0 (displayModes drv) mode =? -1) eqn:Heq;
    [|reflexivity].
  apply Z.eqb_eq in Heq. lia.
Qed.

(** C9. On either driver, [applyDisplayMode] and [currentDisplayMode] throw
    [std::invalid_argument] when the entity points to another driver, and
    [applyDisplayMode] throws it as well when the mode is not one the driver
    lists.  In each case the entity and its scene are as they were. *)
Theorem displayMode_guards (drv : GraphicsEntityDriver) (mode : Z) (w : World) :
  (m_driverPtr (entity w) <> Some (this drv) ->
   let what := "Invalid driver for graphics entity"%string in
   GraphicsShapeEntityDriver.applyDisplayMode drv mode w
     = (inl (std_invalid_argument what), w)
   /\ GraphicsShapeEntityDriver.currentDisplayMode drv w
     = (inl (std_invalid_argument what), w)
   /\ GraphicsMeshEntityDriver.applyDisplayMode drv mode w
     = (inl (std_invalid_argument what), w)
   /\ GraphicsMeshEntityDriver.currentDisplayMode drv w
     = (inl (std_invalid_argument what), w))
  /\ (~ listed (displayModes drv) mode ->
      exists what,
        GraphicsShapeEntityDriver.applyDisplayMode drv mode w
          = (inl (std_invalid_argument what), w)
        /\ GraphicsMeshEntityDriver.applyDisplayMode drv mode w
          = (inl (std_invalid_argument what), w)).
Proof.
  split.
  - intros Hd what.
    unfold GraphicsShapeEntityDriver.applyDisplayMode,
      GraphicsShapeEntityDriver.currentDisplayMode,
      GraphicsMeshEntityDriver.applyDisplayMode,
      GraphicsMeshEntityDriver.currentDisplayMode.
    unfold bind at 1 5 8 10.
    rewrite (throwIf_differentDriver_throws drv w Hd).
    repeat split; unfold bind; now rewrite (throwIf_differentDriver_throws drv w Hd).
  - intros Hm.
    destruct (option_Address_eqb (m_driverPtr (entity w)) (Some (this drv))) eqn:Heq.
    + apply option_Address_eqb_spec in Heq.
      exists "Invalid display mode"%string.
      unfold GraphicsShapeEntityDriver.applyDisplayMode,
        GraphicsMeshEntityDriver.applyDisplayMode.
      split; unfold bind at 1; rewrite (throwIf_differentDriver_passes drv w Heq);
        unfold bind at 1; now rewrite (throwIf_invalidDisplayMode_throws drv mode w Hm).
    + assert (Hd : m_driverPtr (entity w) <> Some (this drv)).
      { intro Habs. apply option_Address_eqb_spec in Habs. congruence. }
      exists "Invalid driver for graphics entity"%string.
      unfold GraphicsShapeEntityDriver.applyDisplayMode,
        GraphicsMeshEntityDriver.applyDisplayMode.
      split; unfold bind at 1; now rewrite (throwIf_differentDriver_throws drv w Hd).
Qed.


End DisplayModeGuards.

Lemma displayMode_guards_witness :
  let drv := GraphicsShapeEntityDriver.new 16%N in
  let what := "Invalid driver for graphics entity"%string in
  (@GraphicsShapeEntityDriver.applyDisplayMode AisObjectDisplayMode drv 7 world_mesh_entity
     = (inl (std_invalid_argument what), world_mesh_entity)
   /\ @GraphicsShapeEntityDriver.currentDisplayMode AisObjectDisplayMode drv world_mesh_entity
     = (inl (std_invalid_argument what), world_mesh_entity)
   /\ @GraphicsMeshEntityDriver.applyDisplayMode AisObjectDisplayMode drv 7 world_mesh_entity
     = (inl (std_invalid_argument what), world_mesh_entity)
   /\ @GraphicsMeshEntityDriver.currentDisplayMode AisObjectDisplayMode drv world_mesh_entity
     = (inl (std_invalid_argument what), world_mesh_entity))
  /\ (exists what',
        @GraphicsShapeEntityDriver.applyDisplayMode AisObjectDisplayMode drv 7
           world_mesh_entity
          = (inl (std_invalid_argument what'), world_mesh_entity)
        /\ @GraphicsMeshEntityDriver.applyDisplayMode AisObjectDisplayMode drv 7
             world_mesh_entity
          = (inl (std_invalid_argument what'), world_mesh_entity)).
Proof.
  split.
  - apply (proj1 (@displayMode_guards AisObjectDisplayMode
                    (GraphicsShapeEntityDriver.new 16%N) 7 world_mesh_entity)).
    discriminate.
  - apply (proj2 (@displayMode_guards AisObjectDisplayMode
                    (GraphicsShapeEntityDriver.new 16%N) 7 world_mesh_entity)).
    unfold listed; cbn. intros [H|[H|[H|[H|[]]]]]; discriminate.
Defined.

(** The right driver, a mode it does not list: the second guard throws. *)
Example mesh_applyDisplayMode_invalid_mode :
  @GraphicsMeshEntityDriver.applyDisplayMode AisObjectDisplayMode
     (GraphicsMeshEntityDriver.new 32%N) 0 world_mesh_entity
  = (inl (std_invalid_argument "Invalid display mode"), world_mesh_entity).
Proof. reflexivity. Qed.


(** With accessors that keep the display mode in the presentation object,
    every entity that has one meets [accessors_agree]. *)
Lemma accessors_agree_with_object (mode : Z) (w : World) :
  m_aisObject (entity w) <> None -> @accessors_agree AisObjectDisplayMode mode w.
Proof.
  intro Hobj. unfold accessors_agree. cbn.
  destruct (m_aisObject (entity w)) as [o|]; [now split | contradiction].
Qed.


(** The shape driver, for contrast, maps modes onto scene and object state. *)
Example shape_applyDisplayMode_wireframe :
  let drv := GraphicsShapeEntityDriver.new 32%N in
  let '(r, w') := @GraphicsShapeEntityDriver.applyDisplayMode AisObjectDisplayMode drv
                     DisplayMode_Wireframe world_mesh_entity in
  r = inr tt
  /\ @GraphicsShapeEntityDriver.currentDisplayMode AisObjectDisplayMode drv w'
     = (inr DisplayMode_Wireframe, w').
Proof. cbn. split; reflexivity. Qed.

(** ** [GuiDocument]: the side table of graphics items *)

(** *** Searching and erasing in a vector *)

Lemma find_if_from_Some {A : Type} (p : A -> bool) (l : list A) :
  forall i pos x, find_if_from i p l = Some (pos, x) ->
    exists before after,
      l = before ++ x :: after
      /\ pos = (i + List.length before)%nat
      /\ p x = true
      /\ forall y, In y before -> p y = false.
Proof.
  induction l as [|a rest IH]; intros i pos x Hf; cbn in Hf; [discriminate|].
  destruct (p a) eqn:Hpa.
  - injection Hf as <- <-. exists [], rest. cbn.
    repeat split; [lia | exact Hpa | intros y []].
  - destruct (IH _ _ _ Hf) as (before & after & Hl & Hpos & Hpx & Hbefore).
    exists (a :: before), after. cbn. subst rest.
    repeat split; [lia | exact Hpx |].
    intros y [<-|Hy]; [exact Hpa | now apply Hbefore].
Qed.

Lemma find_if_from_None {A : Type} (p : A -> bool) (l : list A) :
  forall i, find_if_from i p l = None -> forall y, In y l -> p y = false.
Proof.
  induction l as [|a rest IH]; intros i Hf y Hy; cbn in *; [contradiction|].
  destruct (p a) eqn:Hpa; [discriminate|].
  destruct Hy as [<-|Hy]; [exact Hpa | now apply (IH _ Hf)].
Qed.

Lemma vector_erase_middle {A : Type} (before after : list A) (x : A) :
  vector_erase (List.length before) (before ++ x :: after) = before ++ after.
Proof.
  unfold vector_erase.
  induction before as [|b rest IH]; [reflexivity|].
  change (b :: (firstn (List.length rest) (rest ++ x :: after)
                ++ skipn (S (List.length rest)) (rest ++ x :: after))
          = b :: (rest ++ after)).
  now rewrite IH.
Qed.

Lemma fold_left_map_boxes {A B : Type} (add : B -> B -> B) (f : A -> B) (l : list A) :
  forall b0, fold_left (fun box item => add box (f item)) l b0
             = fold_left add (map f l) b0.
Proof. induction l as [|a rest IH]; intro b0; cbn; [reflexivity | apply IH]. Qed.

Section SideTable.
Context {K : GuiKernel}.
Import GuiDocument.

(** [findGraphicsItem] finds the first item of that id, if there is one. *)
Lemma findGraphicsItem_Some (id : TreeNodeId) (g : GuiDocument.t) pos item :
  findGraphicsItem id g = Some (pos, item) ->
  exists before after,
    m_vecGraphicsItem g = before ++ item :: after
    /\ pos = List.length before
    /\ entityTreeNodeId item = id
    /\ forall it, In it before -> entityTreeNodeId it <> id.
Proof.
  unfold findGraphicsItem. intro Hf.
  destruct (find_if_from_Some _ _ _ _ _ Hf) as (before & after & Hl & Hpos & Hp & Hb).
  exists before, after. repeat split; [exact Hl | exact Hpos | now apply N.eqb_eq |].
  intros it Hit. apply N.eqb_neq. now apply Hb.
Qed.

Lemma findGraphicsItem_None (id : TreeNodeId) (g : GuiDocument.t) :
  findGraphicsItem id g = None ->
  forall it, In it (m_vecGraphicsItem g) -> entityTreeNodeId it <> id.
Proof.
  unfold findGraphicsItem. intros Hf it Hit.
  apply N.eqb_neq. exact (find_if_from_None _ _ _ Hf it Hit).
Qed.

(** What [mapGraphics] does to the table: nothing when the driver table
    yields no presentation object, one more item at the back otherwise. *)
Lemma mapGraphics_items (doc : Document) (id : TreeNodeId) (g : GuiDocument.t) :
  let e := GraphicsEntityDriverTable_createEntity (DocumentTreeNode_label doc id) in
  match m_aisObject e with
  | None => mapGraphics doc id g = g
  | Some _ =>
      exists mapping,
        m_vecGraphicsItem (mapGraphics doc id g)
        = m_vecGraphicsItem g
            ++ [ {| graphicsEntity := GraphicsEntity_setScene (gfxScenePtr g) e;
                    entityTreeNodeId := id;
                    gpxTreeNodeMapping := mapping |} ]
  end.
Proof.
  intro e. unfold mapGraphics. fold e.
  destruct (m_aisObject e) eqn:He; [|reflexivity].
  destruct (createMapping doc id) as [m|].
  - destruct (negb (selectionMode m =? -1)).
    + destruct (mapOwners _ m []) as [m' dbg]. now exists (Some m').
    + now exists (Some m).
  - now exists None.
Qed.

Lemma onDocumentEntityAdded_items (doc : Document) (id : TreeNodeId) (g : GuiDocument.t) :
  m_vecGraphicsItem (onDocumentEntityAdded doc id g)
  = m_vecGraphicsItem (mapGraphics doc id g).
Proof. reflexivity. Qed.

(** What the removal handler does when the id is in the table. *)
Lemma onDocumentEntityAboutToBeDestroyed_found
    (id : TreeNodeId) (g : GuiDocument.t) pos item :
  findGraphicsItem id g = Some (pos, item) ->
  m_vecGraphicsItem (onDocumentEntityAboutToBeDestroyed id g)
    = vector_erase pos (m_vecGraphicsItem g)
  /\ m_gpxBoundingBox (onDocumentEntityAboutToBeDestroyed id g)
    = recomputeBoundingBox (vector_erase pos (m_vecGraphicsItem g)).
Proof.
  intro Hf. unfold onDocumentEntityAboutToBeDestroyed. rewrite Hf. now split.
Qed.

(** C5. On [entityAboutToBeDestroyed], the first item of that id leaves the
    table and every other item stays, in place; when the ids of the table
    are distinct it was the only item of that id.  When no item has the id,
    the whole object (items, scene, bounding box) is as before.  On
    [entityAdded], the table either stays as it is or gets one item of that
    id at the back. *)
Theorem entity_signals_frame (doc : Document) (id : TreeNodeId) (g : GuiDocument.t) :
  match findGraphicsItem id g with
  | Some (_, removed) =>
      exists before after,
        m_vecGraphicsItem g = before ++ removed :: after
        /\ entityTreeNodeId removed = id
        /\ (forall it, In it before -> entityTreeNodeId it <> id)
        /\ (NoDup (itemIds g) -> forall it, In it after -> entityTreeNodeId it <> id)
        /\ m_vecGraphicsItem (onDocumentEntityAboutToBeDestroyed id g) = before ++ after
  | None =>
      (forall it, In it (m_vecGraphicsItem g) -> entityTreeNodeId it <> id)
      /\ onDocumentEntityAboutToBeDestroyed id g = g
  end
  /\ (m_vecGraphicsItem (onDocumentEntityAdded doc id g) = m_vecGraphicsItem g
      \/ exists item,
           entityTreeNodeId item = id
           /\ m_vecGraphicsItem (onDocumentEntityAdded doc id g)
              = m_vecGraphicsItem g ++ [item]).
Proof.
  split.
  - destruct (findGraphicsItem id g) as [[pos removed]|] eqn:Hf.
    + destruct (findGraphicsItem_Some _ _ _ _ Hf) as (before & after & Hl & Hpos & Hid & Hb).
      exists before, after.
      split; [exact Hl|]. split; [exact Hid|]. split; [exact Hb|]. split.
      * intros Hnd it Hit Heq. unfold itemIds in Hnd. rewrite Hl, map_app in Hnd. cbn in Hnd.
        apply NoDup_remove_2 in Hnd. apply Hnd. apply in_or_app. right.
        rewrite Hid, <- Heq. now apply in_map.
      * destruct (onDocumentEntityAboutToBeDestroyed_found _ _ _ _ Hf) as [Hi _].
        rewrite Hi, Hl, Hpos. apply vector_erase_middle.
    + split; [now apply findGraphicsItem_None|].
      unfold onDocumentEntityAboutToBeDestroyed. now rewrite Hf.
  - rewrite onDocumentEntityAdded_items.
    pose proof (mapGraphics_items doc id g) as Hm. cbv zeta in Hm.
    destruct (m_aisObject _).
    + right. destruct Hm as [mapping Hm]. eexists. split; [|exact Hm]. reflexivity.
    + left. now rewrite Hm.
Qed.

(** C6. After a removal the aggregate box is [BndUtils::add] folded, from a
    void box, over the boxes of the items that remain, in table order; the
    removed item contributes nothing. *)
Theorem boundingBox_after_removal (id : TreeNodeId) (g : GuiDocument.t) :
  match findGraphicsItem id g with
  | Some (_, removed) =>
      exists before after,
        m_vecGraphicsItem g = before ++ removed :: after
        /\ m_vecGraphicsItem (onDocumentEntityAboutToBeDestroyed id g) = before ++ after
        /\ m_gpxBoundingBox (onDocumentEntityAboutToBeDestroyed id g)
           = fold_left BndUtils_add (map itemBox (before ++ after)) Bnd_Box_void
  | None =>
      m_gpxBoundingBox (onDocumentEntityAboutToBeDestroyed id g) = m_gpxBoundingBox g
  end.
Proof.
  destruct (findGraphicsItem id g) as [[pos removed]|] eqn:Hf.
  - destruct (findGraphicsItem_Some _ _ _ _ Hf) as (before & after & Hl & Hpos & _ & _).
    destruct (onDocumentEntityAboutToBeDestroyed_found _ _ _ _ Hf) as [Hi Hb].
    exists before, after. split; [exact Hl|].
    rewrite Hi, Hb, Hl, Hpos, vector_erase_middle. split; [reflexivity|].
    unfold recomputeBoundingBox. apply fold_left_map_boxes.
  - unfold onDocumentEntityAboutToBeDestroyed. now rewrite Hf.
Qed.

End SideTable.

(** *** The table along the life of a document *)

Lemma NoDup_snoc {A : Type} (l : list A) (x : A) :
  NoDup l -> ~ In x l -> NoDup (l ++ [x]).
Proof.
  induction l as [|a rest IH]; intros Hnd Hx; cbn.
  - constructor; [intros []|constructor].
  - inversion Hnd as [|? ? Ha Hrest]; subst.
    constructor.
    + intro Hin. apply in_app_or in Hin. destruct Hin as [Hin|[<-|[]]].
      * contradiction.
      * apply Hx. now left.
    + apply IH; [exact Hrest|]. intro Hin. apply Hx. now right.
Qed.

Lemma existsb_eqb_false (id : TreeNodeId) (l : list TreeNodeId) :
  existsb (N.eqb id) l = false <-> ~ In id l.
Proof.
  split.
  - intros He Hin. assert (existsb (N.eqb id) l = true) as Ht.
    { apply existsb_exists. exists id. split; [exact Hin | apply N.eqb_refl]. }
    congruence.
  - intro Hn. destruct (existsb (N.eqb id) l) eqn:He; [|reflexivity].
    apply existsb_exists in He. destruct He as (x & Hx & Heq).
    apply N.eqb_eq in Heq. subst. contradiction.
Qed.

Section SideTableInvariant.
Context {K : GuiKernel}.
Import GuiDocument.

Lemma tableInvariant_mapGraphics live m (doc : Document) (id : TreeNodeId) g :
  tableInvariant live m (m_vecGraphicsItem g) ->
  ~ In id live ->
  tableInvariant (id :: live) (mappedStep m (entityAdded doc id))
    (m_vecGraphicsItem (mapGraphics doc id g)).
Proof.
  intros (Hnd & Hlive & Hais & Hm) Hfresh.
  assert (Hnotin : ~ In id (map entityTreeNodeId (m_vecGraphicsItem g)))
    by (intro Hin; apply Hfresh; now apply Hlive).
  assert (Hmid : m id = false).
  { destruct (m id) eqn:E; [|reflexivity]. apply Hm in E. contradiction. }
  pose proof (mapGraphics_items doc id g) as Hstep. cbv zeta in Hstep.
  unfold tableInvariant, mappedStep, producesAisObject.
  destruct (m_aisObject (GraphicsEntityDriverTable_createEntity
                           (DocumentTreeNode_label doc id))) as [obj|] eqn:Hobj.
  - destruct Hstep as [mapping Hitems]. rewrite Hitems, map_app. cbn [map entityTreeNodeId].
    split; [now apply NoDup_snoc|]. split; [|split].
    + intros i Hi. apply in_app_or in Hi. destruct Hi as [Hi|[<-|[]]].
      * right. now apply Hlive.
      * now left.
    + intros it Hit. apply in_app_or in Hit. destruct Hit as [Hit|[<-|[]]].
      * now apply Hais.
      * cbn. rewrite Hobj. discriminate.
    + intro i. destruct (N.eqb id i) eqn:Hi.
      * apply N.eqb_eq in Hi. subst i. rewrite Hmid. cbn.
        split; [intros _; apply in_or_app; right; now left | reflexivity].
      * apply N.eqb_neq in Hi. rewrite Hm. split.
        -- intro Hin. apply in_or_app. now left.
        -- intro Hin. apply in_app_or in Hin. destruct Hin as [Hin|[Heq|[]]];
             [exact Hin | contradiction].
  - rewrite Hstep. split; [exact Hnd|]. split; [|split].
    + intros i Hi. right. now apply Hlive.
    + exact Hais.
    + intro i. destruct (N.eqb id i) eqn:Hi.
      * apply N.eqb_eq in Hi. subst i. rewrite Hmid. cbn.
        split; [discriminate | intro; contradiction].
      * apply Hm.
Qed.

Lemma tableInvariant_destroyed live m (id : TreeNodeId) g :
  tableInvariant live m (m_vecGraphicsItem g) ->
  tableInvariant (filter (fun j => negb (N.eqb j id)) live)
    (mappedStep m (entityAboutToBeDestroyed id))
    (m_vecGraphicsItem (onDocumentEntityAboutToBeDestroyed id g)).
Proof.
  intros (Hnd & Hlive & Hais & Hm).
  assert (Hkeep : forall i, i <> id -> In i live ->
                            In i (filter (fun j => negb (N.eqb j id)) live)).
  { intros i Hi Hin. apply filter_In. split; [exact Hin|].
    apply negb_true_iff. now apply N.eqb_neq. }
  unfold tableInvariant, mappedStep.
  destruct (findGraphicsItem id g) as [[pos removed]|] eqn:Hf.
  - destruct (findGraphicsItem_Some _ _ _ _ Hf) as (before & after & Hl & Hpos & Hid & Hb).
    destruct (onDocumentEntityAboutToBeDestroyed_found _ _ _ _ Hf) as [Hitems _].
    rewrite Hitems, Hl, Hpos, vector_erase_middle.
    rewrite Hl, map_app in Hnd, Hlive, Hm. cbn [map] in Hnd, Hlive, Hm.
    rewrite Hid in Hnd, Hlive, Hm.
    pose proof (NoDup_remove_1 _ _ _ Hnd) as Hnd1.
    pose proof (NoDup_remove_2 _ _ _ Hnd) as Hnd2.
    rewrite <- map_app in Hnd1, Hnd2.
    assert (Hin_iff : forall i, In i (map entityTreeNodeId (before ++ after)) <->
                      (i <> id /\ In i (map entityTreeNodeId before
                                          ++ id :: map entityTreeNodeId after))).
    { intro i. rewrite map_app. split.
      - intro Hin. split.
        + intros ->. apply Hnd2. now rewrite map_app.
        + apply in_app_or in Hin. apply in_or_app.
          destruct Hin; [now left | right; now right].
      - intros [Hne Hin]. apply in_app_or in Hin. apply in_or_app.
        destruct Hin as [Hin|[Heq|Hin]]; [now left | congruence | now right]. }
    split; [exact Hnd1|]. split; [|split].
    + intros i Hi. apply Hin_iff in Hi. destruct Hi as [Hne Hi]. apply Hkeep; auto.
    + intros it Hit. apply Hais. rewrite Hl. apply in_app_or in Hit. apply in_or_app.
      destruct Hit; [now left | right; now right].
    + intro i. rewrite Hin_iff. destruct (N.eqb id i) eqn:Hi.
      * apply N.eqb_eq in Hi. subst i. split; [discriminate | intros [Hne _]; congruence].
      * apply N.eqb_neq in Hi. rewrite Hm. split; [intro; split; auto | now intros [_ H]].
  - pose proof (findGraphicsItem_None _ _ Hf) as Hnone.
    assert (Hnotin : ~ In id (map entityTreeNodeId (m_vecGraphicsItem g))).
    { intro Hin. apply in_map_iff in Hin. destruct Hin as (it & Heq & Hit).
      exact (Hnone it Hit Heq). }
    unfold onDocumentEntityAboutToBeDestroyed. rewrite Hf.
    split; [exact Hnd|]. split; [|split].
    + intros i Hi. apply Hkeep; [|now apply Hlive]. intros ->. contradiction.
    + exact Hais.
    + intro i. destruct (N.eqb id i) eqn:Hi.
      * apply N.eqb_eq in Hi. subst i. split; [discriminate | intro; contradiction].
      * apply Hm.
Qed.

Lemma tableInvariant_run (signals : list DocumentSignal) :
  forall live m g,
    tableInvariant live m (m_vecGraphicsItem g) ->
    documentProtocol live signals = true ->
    exists live',
      tableInvariant live' (fold_left mappedStep signals m)
        (m_vecGraphicsItem (run signals g)).
Proof.
  induction signals as [|s rest IH]; intros live m g Hinv Hp; cbn in *.
  - now exists live.
  - destruct s as [doc id|id]; cbn [deliver].
    + apply andb_true_iff in Hp. destruct Hp as [Hfresh Hp].
      apply negb_true_iff, existsb_eqb_false in Hfresh.
      apply (IH (id :: live)); [|exact Hp].
      rewrite onDocumentEntityAdded_items. now apply tableInvariant_mapGraphics.
    + apply (IH _ _ _ (tableInvariant_destroyed live m id g Hinv) Hp).
Qed.

Lemma tableInvariant_constructed (doc : Document) (rest : list DocumentSignal)
    (ids : list TreeNodeId) :
  forall live m g,
    tableInvariant live m (m_vecGraphicsItem g) ->
    documentProtocol live (map (entityAdded doc) ids ++ rest) = true ->
    exists live',
      tableInvariant live' (fold_left mappedStep (map (entityAdded doc) ids) m)
        (m_vecGraphicsItem (fold_left (fun g id => mapGraphics doc id g) ids g))
      /\ documentProtocol live' rest = true.
Proof.
  induction ids as [|id ids IH]; intros live m g Hinv Hp; cbn in *.
  - now exists live.
  - apply andb_true_iff in Hp. destruct Hp as [Hfresh Hp].
    apply negb_true_iff, existsb_eqb_false in Hfresh.
    apply (IH (id :: live)); [|exact Hp].
    now apply tableInvariant_mapGraphics.
Qed.

Lemma countItems_in (id : TreeNodeId) (items : list GraphicsItem) :
  NoDup (map entityTreeNodeId items) ->
  In id (map entityTreeNodeId items) ->
  List.length (filter (fun item => N.eqb (entityTreeNodeId item) id) items) = 1%nat.
Proof.
  induction items as [|a rest IH]; intros Hnd Hin; cbn in *; [contradiction|].
  inversion Hnd as [|? ? Ha Hrest]; subst.
  destruct (N.eqb (entityTreeNodeId a) id) eqn:Ha_id.
  - apply N.eqb_eq in Ha_id. cbn. f_equal.
    assert (Hnone : forall it, In it rest -> N.eqb (entityTreeNodeId it) id = false).
    { intros it Hit. apply N.eqb_neq. intro Heq. apply Ha. rewrite Ha_id, <- Heq.
      now apply in_map. }
    clear - Hnone. induction rest as [|b rest IH]; [reflexivity|].
    cbn. rewrite (Hnone b (or_introl eq_refl)). apply IH.
    intros it Hit. apply Hnone. now right.
  - apply N.eqb_neq in Ha_id. destruct Hin as [Heq|Hin]; [contradiction|].
    now apply IH.
Qed.

Lemma countItems_notin (id : TreeNodeId) (items : list GraphicsItem) :
  ~ In id (map entityTreeNodeId items) ->
  List.length (filter (fun item => N.eqb (entityTreeNodeId item) id) items) = 0%nat.
Proof.
  induction items as [|a rest IH]; intro Hn; cbn in *; [reflexivity|].
  destruct (N.eqb (entityTreeNodeId a) id) eqn:Ha.
  - apply N.eqb_eq in Ha. exfalso. apply Hn. now left.
  - apply IH. intro Hin. apply Hn. now right.
Qed.

Lemma find_if_from_exists {A : Type} (p : A -> bool) (l : list A) :
  forall i x, In x l -> p x = true -> exists pos y, find_if_from i p l = Some (pos, y).
Proof.
  induction l as [|a rest IH]; intros i x Hin Hp; cbn in *; [contradiction|].
  destruct (p a) eqn:Hpa; [now exists i, a|].
  destruct Hin as [->|Hin]; [congruence|]. now apply (IH (S i) x).
Qed.

(** C4, as amended.  Under the discipline of [Document] (an entity is
    announced only under an id that no entity alive carries), after the
    constructor and any
    sequence of signals, the table holds exactly one item for every id for
    which [mapGraphics] produced a presentation object and that was not
    removed since, and no item for any other id; [findGraphicsEntity]
    returns the entity of that item in the first case, and a default
    entity, with a null AIS object, in the second. *)
Theorem side_table_invariant
    (doc0 : Document) (scenePtr : Address) (scene0 : GraphicsScene)
    (signals : list DocumentSignal) (id : TreeNodeId) :
  documentProtocol [] (history doc0 signals) = true ->
  let g := run signals (constructed doc0 (fresh scenePtr scene0)) in
  if mapped (history doc0 signals) id then
    countItems id g = 1%nat
    /\ exists item,
         In item (m_vecGraphicsItem g)
         /\ entityTreeNodeId item = id
         /\ findGraphicsEntity id g = graphicsEntity item
         /\ m_aisObject (graphicsEntity item) <> None
  else
    countItems id g = 0%nat
    /\ findGraphicsEntity id g = GraphicsEntity_default
    /\ m_aisObject (findGraphicsEntity id g) = None.
Proof.
  intros Hp g.
  assert (Hinv0 : tableInvariant [] (fun _ => false)
                    (m_vecGraphicsItem (fresh scenePtr scene0))).
  { cbn. repeat split; try constructor; try contradiction; try discriminate. }
  unfold history in *.
  destruct (tableInvariant_constructed doc0 signals (entityTreeNodeIds doc0)
              _ _ _ Hinv0 Hp) as (live1 & Hinv1 & Hp1).
  destruct (tableInvariant_run signals _ _ _ Hinv1 Hp1) as (live2 & Hnd & _ & Hais & Hm).
  fold (constructed doc0 (fresh scenePtr scene0)) in Hnd, Hais, Hm. fold g in Hnd, Hais, Hm.
  unfold mapped. rewrite fold_left_app.
  destruct (fold_left mappedStep signals _ id) eqn:Hmid.
  - apply Hm in Hmid. split; [now apply countItems_in|].
    apply in_map_iff in Hmid. destruct Hmid as (it & Hit_id & Hit).
    destruct (find_if_from_exists (fun item => N.eqb (entityTreeNodeId item) id)
                (m_vecGraphicsItem g) 0 it Hit) as (pos & found & Hf);
      [now apply N.eqb_eq|].
    fold (findGraphicsItem id g) in Hf.
    destruct (findGraphicsItem_Some _ _ _ _ Hf) as (before & after & Hl & _ & Hid & _).
    exists found. unfold findGraphicsEntity. rewrite Hf.
    assert (Hin : In found (m_vecGraphicsItem g))
      by (rewrite Hl; apply in_or_app; right; now left).
    repeat split; [exact Hin | exact Hid | now apply Hais].
  - assert (Hnotin : ~ In id (map entityTreeNodeId (m_vecGraphicsItem g))).
    { intro Hin. apply Hm in Hin. congruence. }
    split; [now apply countItems_notin|].
    assert (Hf : findGraphicsItem id g = None).
    { destruct (findGraphicsItem id g) as [[pos found]|] eqn:Hf; [|reflexivity].
      destruct (findGraphicsItem_Some _ _ _ _ Hf) as (before & after & Hl & _ & Hid & _).
      exfalso. apply Hnotin. rewrite Hl, map_app. apply in_or_app. right. left. exact Hid. }
    unfold findGraphicsEntity. rewrite Hf. split; reflexivity.
Qed.

End SideTableInvariant.

(** A run of the one-axis kernel: the document starts with a solid, a mesh
    and a face (the shape driver has nothing to show for the mesh); the
    solid is destroyed, a face arrives as node 4, the mesh is destroyed. *)
Lemma side_table_invariant_witness :
  let signals :=
    [ @GuiDocument.entityAboutToBeDestroyed 1%N;
      @GuiDocument.entityAdded
        {| entityTreeNodeIds := [2%N; 3%N; 4%N];
           DocumentTreeNode_label := fun _ => Some label_face |} 4%N;
      @GuiDocument.entityAboutToBeDestroyed 2%N ] in
  let g := @GuiDocument.run IntervalKernel signals
             (@GuiDocument.constructed IntervalKernel document_three_entities
                (@GuiDocument.fresh IntervalKernel 64%N scene_empty)) in
  documentProtocol [] (history document_three_entities signals) = true
  /\ @countItems IntervalKernel 3%N g = 1%nat
  /\ exists item,
       In item (GuiDocument.m_vecGraphicsItem g)
       /\ GuiDocument.entityTreeNodeId item = 3%N
       /\ GuiDocument.findGraphicsEntity 3%N g = GuiDocument.graphicsEntity item
       /\ m_aisObject (GuiDocument.graphicsEntity item) <> None.
Proof.
  cbv zeta. split; [reflexivity|].
  exact (@side_table_invariant IntervalKernel document_three_entities 64%N scene_empty
           [ @GuiDocument.entityAboutToBeDestroyed 1%N;
             @GuiDocument.entityAdded
               {| entityTreeNodeIds := [2%N; 3%N; 4%N];
                  DocumentTreeNode_label := fun _ => Some label_face |} 4%N;
             @GuiDocument.entityAboutToBeDestroyed 2%N ]
           3%N eq_refl).
Defined.

(** Without the discipline the statement fails.  Node 1 is announced while
    the entity mapped under that id by the constructor is alive: the table
    then holds two items for an id that was mapped and not removed; after
    one removal the id counts as removed and is still found. *)
Lemma side_table_counterexample :
  let signals := [ @GuiDocument.entityAdded document_three_entities 1%N ] in
  let g := @GuiDocument.run IntervalKernel signals
             (@GuiDocument.constructed IntervalKernel document_three_entities
                (@GuiDocument.fresh IntervalKernel 64%N scene_empty)) in
  let g' := @GuiDocument.onDocumentEntityAboutToBeDestroyed IntervalKernel 1%N g in
  @mapped IntervalKernel (history document_three_entities signals) 1%N = true
  /\ @countItems IntervalKernel 1%N g = 2%nat
  /\ @mapped IntervalKernel
       (history document_three_entities
          (signals ++ [ @GuiDocument.entityAboutToBeDestroyed 1%N ])) 1%N = false
  /\ @countItems IntervalKernel 1%N g' = 1%nat
  /\ IsNull (m_aisObject (GuiDocument.findGraphicsEntity 1%N g')) = false.
Proof. cbv zeta. repeat split. Qed.

(** The same kernel, step by step. *)
Example constructed_three_entities :
  let g := @GuiDocument.constructed IntervalKernel document_three_entities
             (@GuiDocument.fresh IntervalKernel 64%N scene_empty) in
  itemIds g = [1%N; 3%N]
  /\ GuiDocument.m_gpxBoundingBox g = Some (2, 4)
  /\ m_aisObject (GuiDocument.findGraphicsEntity 2%N g) = None.
Proof. cbv zeta. repeat split. Qed.

Example removal_recomputes_box :
  let g := @GuiDocument.onDocumentEntityAboutToBeDestroyed IntervalKernel 1%N
             (@GuiDocument.constructed IntervalKernel document_three_entities
                (@GuiDocument.fresh IntervalKernel 64%N scene_empty)) in
  itemIds g = [3%N]
  /\ GuiDocument.m_gpxBoundingBox g = Some (2, 3)
  /\ GuiDocument.emitted g
     = [@GuiDocument.graphicsBoundingBoxChanged IntervalKernel (Some (2, 3))].
Proof. cbv zeta. repeat split. Qed.

Example removal_of_unmapped_id :
  let g := @GuiDocument.constructed IntervalKernel document_three_entities
             (@GuiDocument.fresh IntervalKernel 64%N scene_empty) in
  @GuiDocument.onDocumentEntityAboutToBeDestroyed IntervalKernel 2%N g = g.
Proof. vm_compute. reflexivity. Qed.

(** The discipline of the document is what keeps the ids of the table
    distinct: [mapGraphics] itself does not look for the id.  An entity
    announced under the id of one that is alive would get a second item. *)
Example announcement_outside_discipline :
  let signals := [ @GuiDocument.entityAdded document_three_entities 1%N ] in
  documentProtocol [] (history document_three_entities signals) = false
  /\ @countItems IntervalKernel 1%N
       (@GuiDocument.run IntervalKernel signals
          (@GuiDocument.constructed IntervalKernel document_three_entities
             (@GuiDocument.fresh IntervalKernel 64%N scene_empty))) = 2%nat.
Proof. cbv zeta. split; reflexivity. Qed.

(* ================================================================== *)
(** * Part III.  Further properties of the embedded code *)
(* ================================================================== *)

(** ** caf_utils.cpp *)

(** X1. [CafUtils::hasAttribute] holds exactly when the label carries an
    attribute of that ID, and a label on which it holds is never null or
    empty for [CafUtils::isNullOrEmpty]. *)
Theorem hasAttribute_spec (label : TDF_Label) (attrGuid : Standard_GUID) :
  (CafUtils.hasAttribute label attrGuid = true
   <-> exists a, In a (labelAttributes label)
                 /\ Standard_GUID_eqb (TDF_Attribute_ID a) attrGuid = true)
  /\ (CafUtils.hasAttribute label attrGuid && CafUtils.isNullOrEmpty (Some label))
     = false.
Proof.
  unfold CafUtils.hasAttribute, TDF_Label_FindAttribute, CafUtils.isNullOrEmpty.
  split.
  - destruct (find _ (labelAttributes label)) as [a|] eqn:Hf; split; intro H.
    + exists a. apply find_some in Hf. exact Hf.
    + reflexivity.
    + discriminate.
    + destruct H as (a & Hin & Ha). pose proof (find_none _ _ Hf a Hin) as Hn.
      cbv beta in Hn. congruence.
  - destruct (labelAttributes label) as [|a rest]; [reflexivity|].
    apply andb_false_r.
Qed.

(** ** The entity drivers: what they create *)

Section DriverCreate.
Context {X : XCaf} {B : BRepKernel}.

(** X2. The shape driver creates a presentation object exactly for the
    labels it reports [Complete] support for; it never reports [Partial]. *)
Theorem shape_support_matches_createEntity (drv : GraphicsEntityDriver) (label : TDF_Label) :
  match GraphicsShapeEntityDriver.supportStatus label with
  | Support_Complete =>
      IsNull (m_aisObject (GraphicsShapeEntityDriver.createEntity drv label)) = false
  | Support_None =>
      IsNull (m_aisObject (GraphicsShapeEntityDriver.createEntity drv label)) = true
  | Support_Partial => False
  end.
Proof.
  unfold GraphicsShapeEntityDriver.supportStatus, GraphicsShapeEntityDriver.createEntity.
  destruct (XCaf_isShape label); [reflexivity|].
  destruct (CafUtils.hasAttribute_TDataXtd_Triangulation label); reflexivity.
Qed.

Lemma hasAttribute_Triangulation_find (label : TDF_Label) :
  CafUtils.hasAttribute_TDataXtd_Triangulation label
  = negb (IsNull (TDF_Label_FindAttribute TDataXtd_Triangulation_ID label)).
Proof.
  unfold CafUtils.hasAttribute_TDataXtd_Triangulation, CafUtils.hasAttribute.
  now destruct (TDF_Label_FindAttribute _ _).
Qed.

Lemma TopAbs_ShapeEnum_eqb_eq (a b : TopAbs_ShapeEnum) :
  TopAbs_ShapeEnum_eqb a b = true <-> a = b.
Proof. destruct a, b; cbn; split; intro H; try reflexivity; discriminate. Qed.

Lemma FindAttribute_Triangulation (label : TDF_Label) (a : TDF_Attribute) :
  TDF_Label_FindAttribute TDataXtd_Triangulation_ID label = Some a ->
  exists t, a = TDataXtd_Triangulation t.
Proof.
  unfold TDF_Label_FindAttribute. intro Hf. apply find_some in Hf.
  destruct Hf as [_ Hid]. destruct a; try discriminate. now eexists.
Qed.

(** X3. The mesh driver stores the label and itself in the entity.  When
    the entity has a presentation object, it is a mesh over a triangulation
    that is either the one held by the label's triangulation attribute or,
    the label having no such attribute, the one of the face the label is.
    When it has none, the attribute holds a null triangulation or, without
    attribute, the label is no shape, or no face, or a face without
    triangulation: an attribute with a null triangulation is not made up
    for by the face.  A label the driver reports no support for never gets
    a presentation object. *)
Theorem mesh_createEntity_spec
    (defaults : MeshDefaultValues) (drawer0 : MeshVS_Drawer)
    (drv : GraphicsEntityDriver) (label : TDF_Label) :
  let '(e, details) := GraphicsMeshEntityDriver.createEntity defaults drawer0 drv label in
  m_label e = Some label
  /\ m_driverPtr e = Some (this drv)
  /\ IsNull details = IsNull (m_aisObject e)
  /\ match m_aisObject e with
     | Some obj =>
         exists tri,
           aisClass obj = MeshVS_Mesh tri
           /\ (TDF_Label_FindAttribute TDataXtd_Triangulation_ID label
                 = Some (TDataXtd_Triangulation (Some tri))
               \/ (CafUtils.hasAttribute_TDataXtd_Triangulation label = false
                   /\ XCaf_isShape label = true
                   /\ ShapeType (XCaf_shape label) = TopAbs_FACE
                   /\ exists tface,
                        BRep_TFace_DownCast (XCaf_shape label) = Some tface
                        /\ BRep_TFace_Triangulation tface = Some tri))
     | None =>
         if CafUtils.hasAttribute_TDataXtd_Triangulation label
         then TDF_Label_FindAttribute TDataXtd_Triangulation_ID label
              = Some (TDataXtd_Triangulation None)
         else XCaf_isShape label = false
              \/ ShapeType (XCaf_shape label) <> TopAbs_FACE
              \/ BRep_TFace_DownCast (XCaf_shape label) = None
              \/ exists tface,
                   BRep_TFace_DownCast (XCaf_shape label) = Some tface
                   /\ BRep_TFace_Triangulation tface = None
     end
  /\ match GraphicsMeshEntityDriver.supportStatus label with
     | Support_None => m_aisObject e = None
     | _ => True
     end.
Proof.
  unfold GraphicsMeshEntityDriver.createEntity, GraphicsMeshEntityDriver.polyTriOf,
    GraphicsMeshEntityDriver.supportStatus.
  rewrite hasAttribute_Triangulation_find.
  destruct (TDF_Label_FindAttribute TDataXtd_Triangulation_ID label) as [a|] eqn:Hf.
  - destruct (FindAttribute_Triangulation label a Hf) as [t ->].
    destruct t as [tri|]; cbn.
    + repeat split. exists tri. split; [reflexivity | now left].
    + repeat split.
  - cbn [IsNull negb].
    destruct (XCaf_isShape label) eqn:Hs.
    2:{ cbn. repeat split. now left. }
    destruct (TopAbs_ShapeEnum_eqb (ShapeType (XCaf_shape label)) TopAbs_FACE) eqn:Hface.
    2:{ cbn. repeat split. right. left. intro Habs.
        apply TopAbs_ShapeEnum_eqb_eq in Habs. congruence. }
    apply TopAbs_ShapeEnum_eqb_eq in Hface.
    destruct (BRep_TFace_DownCast (XCaf_shape label)) as [tface|] eqn:Hd.
    2:{ cbn. repeat split. right. right. now left. }
    destruct (BRep_TFace_Triangulation tface) as [tri|] eqn:Ht; cbn.
    + repeat split. exists tri. split; [reflexivity|]. right.
      repeat split; try assumption. exists tface. now split.
    + repeat split. right. right. right. exists tface. now split.
Qed.

Lemma Drawer_Get_Set_same key v d : Drawer_Get key (Drawer_Set key v d) = Some v.
Proof. unfold Drawer_Get, Drawer_Set. cbn. now destruct key. Qed.

Lemma Drawer_Get_Set_other key key' v d :
  MeshVS_DrawerAttribute_eqb key' key = false ->
  Drawer_Get key (Drawer_Set key' v d) = Drawer_Get key d.
Proof.
  intro Hne. unfold Drawer_Get, Drawer_Set. cbn. rewrite Hne. f_equal.
  induction d as [|[k x] rest IH]; cbn; [reflexivity|].
  destruct (MeshVS_DrawerAttribute_eqb k key') eqn:Hk; cbn.
  - destruct (MeshVS_DrawerAttribute_eqb k key) eqn:Hk2; [|exact IH].
    destruct k, key, key'; discriminate.
  - destruct (MeshVS_DrawerAttribute_eqb k key); [reflexivity | exact IH].
Qed.

(** X4. A mesh object is created with the default values current at the
    call: edges, nodes, both colours, and the default material, which
    replaces the plastic material set just before.  It is shown shaded and
    its one builder is selectable. *)
Theorem mesh_createEntity_defaults
    (defaults : MeshDefaultValues) (drawer0 : MeshVS_Drawer)
    (drv : GraphicsEntityDriver) (label : TDF_Label) :
  match GraphicsMeshEntityDriver.createEntity defaults drawer0 drv label with
  | (e, Some details) =>
      let d := mesh_drawer details in
      Drawer_Get MeshVS_DA_ShowEdges d = Some (DV_Boolean (dv_showEdges defaults))
      /\ Drawer_Get MeshVS_DA_DisplayNodes d = Some (DV_Boolean (dv_showNodes defaults))
      /\ Drawer_Get MeshVS_DA_InteriorColor d = Some (DV_Color (dv_color defaults))
      /\ Drawer_Get MeshVS_DA_EdgeColor d = Some (DV_Color (dv_edgeColor defaults))
      /\ Drawer_Get MeshVS_DA_FrontMaterial d = Some (DV_Material (dv_material defaults))
      /\ option_map DisplayMode (m_aisObject e) = Some MeshVS_DMF_Shading
      /\ mesh_builders details = [true]
  | (e, None) => m_aisObject e = None
  end.
Proof.
  unfold GraphicsMeshEntityDriver.createEntity.
  destruct (GraphicsMeshEntityDriver.polyTriOf label); [|reflexivity].
  cbv zeta. cbn [mesh_drawer mesh_builders].
  repeat split;
    repeat first [ apply Drawer_Get_Set_same
                 | rewrite Drawer_Get_Set_other by reflexivity ].
Qed.

End DriverCreate.

(** Support, even [Complete], does not promise a presentation object: the
    attribute may hold a null triangulation, a face may have none. *)
Example mesh_complete_support_null_object :
  let label := {| labelEntry := [0%N; 2%N];
                  labelAttributes := [TDataXtd_Triangulation None] |} in
  @GraphicsMeshEntityDriver.supportStatus XCAFDoc_ShapeTool label = Support_Complete
  /\ m_aisObject
       (fst (@GraphicsMeshEntityDriver.createEntity XCAFDoc_ShapeTool NoTFace
               {| dv_color := 1%N; dv_edgeColor := 2%N; dv_material := 5%N;
                  dv_showEdges := false; dv_showNodes := false |} []
               (GraphicsMeshEntityDriver.new 32%N) label)) = None
  /\ @GraphicsMeshEntityDriver.supportStatus XCAFDoc_ShapeTool label_face = Support_Partial
  /\ m_aisObject
       (fst (@GraphicsMeshEntityDriver.createEntity XCAFDoc_ShapeTool NoTFace
               {| dv_color := 1%N; dv_edgeColor := 2%N; dv_material := 5%N;
                  dv_showEdges := false; dv_showNodes := false |} []
               (GraphicsMeshEntityDriver.new 32%N) label_face)) = None.
Proof. cbv zeta. repeat split. Qed.

(** ** The shape driver's display modes *)

Section ShapeDisplayMode.
Context {G : GraphicsEntityApi}.

(** X5. [GraphicsShapeEntityDriver::currentDisplayMode] never changes the
    entity or the scene, and what it returns is one of the four modes the
    driver lists, or [-1]. *)
Theorem shape_currentDisplayMode_range (addr : Address) (w : World) :
  let drv := GraphicsShapeEntityDriver.new addr in
  match GraphicsShapeEntityDriver.currentDisplayMode drv w with
  | (inr mode, w') => w' = w /\ (listed (displayModes drv) mode \/ mode = -1)
  | (inl _, w') => w' = w
  end.
Proof.
  intro drv. unfold GraphicsShapeEntityDriver.currentDisplayMode.
  unfold bind at 1.
  destruct (option_Address_eqb (m_driverPtr (entity w)) (Some (this drv))) eqn:Hd.
  2:{ assert (Hne : m_driverPtr (entity w) <> Some (this drv)).
      { intro Habs. apply option_Address_eqb_spec in Habs. congruence. }
      now rewrite (throwIf_differentDriver_throws drv w Hne). }
  - apply option_Address_eqb_spec in Hd.
    rewrite (throwIf_differentDriver_passes drv w Hd).
    unfold bind at 1, deref_graphicsScene, bind at 1, get.
    destruct (m_gfxScene (entity w)); cbn; [|reflexivity].
    destruct (GraphicsScene_hiddenLineDrawingOn (scene w)); cbn.
    + split; [reflexivity|]. left. unfold listed. cbn. tauto.
    + unfold bind, get, ret.
      destruct (GraphicsEntity_displayMode w =? AIS_WireFrame).
      * split; [reflexivity|]. left. unfold listed. cbn. tauto.
      * destruct (GraphicsEntity_displayMode w =? AIS_Shaded).
        -- unfold deref_aisObject, bind, get, ret, throw.
           destruct (m_aisObject (entity w)) as [o|]; [|reflexivity].
           split; [reflexivity|]. left. unfold listed. cbn.
           destruct (FaceBoundaryDraw o); tauto.
        -- split; [reflexivity|]. now right.
Qed.

(** X6. [applyDisplayMode] with [DisplayMode_HiddenLineRemoval], on an
    entity of the driver that is in a scene, succeeds whether or not the
    entity has a presentation object.  It leaves the entity as it is, sets
    the drawer to polygonal hidden-line removal, and puts every defined view
    in computed mode.  When the scene then reports hidden-line drawing,
    [currentDisplayMode] returns the mode that was applied. *)
Theorem shape_applyDisplayMode_HLR (addr : Address) (w : World) :
  let drv := GraphicsShapeEntityDriver.new addr in
  m_driverPtr (entity w) = Some (this drv) ->
  m_gfxScene (entity w) <> None ->
  exists w',
    GraphicsShapeEntityDriver.applyDisplayMode drv DisplayMode_HiddenLineRemoval w
      = (inr tt, w')
    /\ entity w' = entity w
    /\ TypeOfHLR (defaultPrs3dDrawer (scene w')) = Prs3d_TOH_PolyAlgo
    /\ DrawHiddenLine (defaultPrs3dDrawer (scene w')) = true
    /\ DefinedViews (scene w')
       = map (fun _ => {| ComputedMode := true |}) (DefinedViews (scene w))
    /\ sceneCalls (scene w') = sceneCalls (scene w)
    /\ (GraphicsScene_hiddenLineDrawingOn (scene w') = true ->
        GraphicsShapeEntityDriver.currentDisplayMode drv w'
          = (inr DisplayMode_HiddenLineRemoval, w')).
Proof.
  intros drv Hd Hs.
  destruct (m_gfxScene (entity w)) as [ptr|] eqn:Hptr; [clear Hs | congruence].
  set (w' := set_scene
               (fnSetViewComputedMode true
                  (Drawer_SetDrawHiddenLine true
                     (Drawer_SetTypeOfHLR Prs3d_TOH_PolyAlgo (scene w)))) w).
  assert (Hd' : m_driverPtr (entity w') = Some (this drv)) by exact Hd.
  exists w'. split; [|split; [|split; [|split; [|split; [|split]]]]];
    try reflexivity.
  - unfold GraphicsShapeEntityDriver.applyDisplayMode.
    unfold bind at 1. rewrite (throwIf_differentDriver_passes drv w Hd).
    unfold bind at 1.
    rewrite (throwIf_invalidDisplayMode_passes drv DisplayMode_HiddenLineRemoval w)
      by (unfold listed; cbn; tauto).
    unfold bind at 1, deref_graphicsScene, bind at 1, get. rewrite Hptr. cbn.
    reflexivity.
  - intro Hon. unfold GraphicsShapeEntityDriver.currentDisplayMode.
    unfold bind at 1.
    rewrite (throwIf_differentDriver_passes drv w' Hd').
    unfold bind at 1, deref_graphicsScene, bind at 1, get.
    change (m_gfxScene (entity w')) with (m_gfxScene (entity w)). rewrite Hptr.
    cbn [ret]. now rewrite Hon.
Qed.

End ShapeDisplayMode.

Lemma shape_applyDisplayMode_HLR_witness :
  let drv := GraphicsShapeEntityDriver.new 32%N in
  exists w',
    @GraphicsShapeEntityDriver.applyDisplayMode AisObjectDisplayMode drv
       DisplayMode_HiddenLineRemoval world_mesh_entity = (inr tt, w')
    /\ entity w' = entity world_mesh_entity
    /\ TypeOfHLR (defaultPrs3dDrawer (scene w')) = Prs3d_TOH_PolyAlgo
    /\ DrawHiddenLine (defaultPrs3dDrawer (scene w')) = true
    /\ DefinedViews (scene w')
       = map (fun _ => {| ComputedMode := true |}) (DefinedViews (scene world_mesh_entity))
    /\ sceneCalls (scene w') = sceneCalls (scene world_mesh_entity)
    /\ (@GraphicsScene_hiddenLineDrawingOn AisObjectDisplayMode (scene w') = true ->
        @GraphicsShapeEntityDriver.currentDisplayMode AisObjectDisplayMode drv w'
          = (inr DisplayMode_HiddenLineRemoval, w')).
Proof.
  apply (@shape_applyDisplayMode_HLR AisObjectDisplayMode 32%N world_mesh_entity).
  - reflexivity.
  - discriminate.
Defined.

(** ** [GuiDocument]: what every reachable object satisfies *)

Lemma find_if_from_find {A : Type} (p : A -> bool) (l : list A) :
  forall i, option_map snd (find_if_from i p l) = find p l.
Proof.
  induction l as [|a rest IH]; intro i; cbn; [reflexivity|].
  destruct (p a); [reflexivity | apply IH].
Qed.

Lemma find_app_first {A : Type} (p : A -> bool) (l1 l2 : list A) :
  find p (l1 ++ l2) = match find p l1 with Some x => Some x | None => find p l2 end.
Proof.
  induction l1 as [|a rest IH]; cbn; [reflexivity|].
  destruct (p a); [reflexivity | exact IH].
Qed.

Lemma fold_left_snoc {A B : Type} (f : A -> B -> A) (l : list B) (x : B) (a0 : A) :
  fold_left f (l ++ [x]) a0 = f (fold_left f l a0) x.
Proof. now rewrite fold_left_app. Qed.

Section ReachableGuiDocument.
Context {K : GuiKernel}.
Import GuiDocument.

(** The table read with [find]: the entity of the first item of that id. *)
Lemma findGraphicsEntity_find (id : TreeNodeId) (g : GuiDocument.t) :
  findGraphicsEntity id g
  = match find (fun item => N.eqb (entityTreeNodeId item) id) (m_vecGraphicsItem g) with
    | Some item => graphicsEntity item
    | None => GraphicsEntity_default
    end.
Proof.
  unfold findGraphicsEntity, findGraphicsItem.
  rewrite <- (find_if_from_find _ (m_vecGraphicsItem g) 0).
  now destruct (find_if_from 0 _ _) as [[pos item]|].
Qed.

(** Everything [mapGraphics] changes when the driver table yields a
    presentation object. *)
Lemma mapGraphics_effect (doc : Document) (id : TreeNodeId) (g : GuiDocument.t) :
  let e := GraphicsEntityDriverTable_createEntity (DocumentTreeNode_label doc id) in
  match m_aisObject e with
  | None => mapGraphics doc id g = g
  | Some _ =>
      exists mapping,
        m_vecGraphicsItem (mapGraphics doc id g)
        = m_vecGraphicsItem g
            ++ [ {| graphicsEntity := GraphicsEntity_setScene (gfxScenePtr g) e;
                    entityTreeNodeId := id;
                    gpxTreeNodeMapping := mapping |} ]
        /\ m_gpxBoundingBox (mapGraphics doc id g)
           = BndUtils_add (m_gpxBoundingBox g)
               (GraphicsUtils_AisObject_boundingBox (m_aisObject e))
        /\ gfxScenePtr (mapGraphics doc id g) = gfxScenePtr g
        /\ emitted (mapGraphics doc id g) = emitted g
  end.
Proof.
  intro e. unfold mapGraphics. fold e.
  destruct (m_aisObject e) eqn:He; [|reflexivity].
  destruct (createMapping doc id) as [m|].
  - destruct (negb (selectionMode m =? -1)).
    + destruct (mapOwners _ m []) as [m' dbg]. exists (Some m'). cbn. rewrite He.
      now repeat split.
    + exists (Some m). cbn. rewrite He. now repeat split.
  - exists None. cbn. rewrite He. now repeat split.
Qed.

Lemma mapGraphics_keeps (doc : Document) (id : TreeNodeId) (g : GuiDocument.t) :
  gfxScenePtr (mapGraphics doc id g) = gfxScenePtr g
  /\ emitted (mapGraphics doc id g) = emitted g.
Proof.
  pose proof (mapGraphics_effect doc id g) as H. cbv zeta in H.
  destruct (m_aisObject _).
  - destruct H as (mapping & _ & _ & Hp & He). now split.
  - rewrite H. now split.
Qed.

Lemma wellFormed_fresh (scenePtr : Address) (scene0 : GraphicsScene) :
  wellFormed scenePtr (fresh scenePtr scene0).
Proof. unfold wellFormed. cbn. repeat split; contradiction. Qed.

Lemma wellFormed_mapGraphics scenePtr (doc : Document) (id : TreeNodeId) g :
  emitted g = [] ->
  wellFormed scenePtr g ->
  wellFormed scenePtr (mapGraphics doc id g) /\ emitted (mapGraphics doc id g) = [].
Proof.
  intros Hem (Hptr & Hbox & Hitems & _).
  pose proof (mapGraphics_effect doc id g) as H. cbv zeta in H.
  destruct (m_aisObject (GraphicsEntityDriverTable_createEntity
                           (DocumentTreeNode_label doc id))) as [obj|] eqn:Hobj.
  - destruct H as (mapping & Hi & Hb & Hp & He).
    split; [|now rewrite He].
    unfold wellFormed. rewrite Hi, Hb, Hp, He, Hem, map_app. cbn [map].
    rewrite fold_left_snoc, <- Hbox.
    split; [exact Hptr|]. split; [unfold itemBox; cbn; now rewrite Hobj|].
    split; [|reflexivity].
    intros item Hin. apply in_app_or in Hin. destruct Hin as [Hin|[<-|[]]].
    + now apply Hitems.
    + cbn. rewrite Hobj, Hptr. now split.
  - rewrite H. split; [|exact Hem]. unfold wellFormed. rewrite Hem.
    split; [exact Hptr|]. split; [exact Hbox|]. split; [exact Hitems | reflexivity].
Qed.

Lemma wellFormed_added scenePtr (doc : Document) (id : TreeNodeId) g :
  wellFormed scenePtr g -> wellFormed scenePtr (onDocumentEntityAdded doc id g).
Proof.
  intros (Hptr & Hbox & Hitems & _).
  pose proof (mapGraphics_effect doc id g) as H. cbv zeta in H.
  unfold onDocumentEntityAdded, wellFormed.
  cbn [gfxScenePtr m_gpxBoundingBox m_vecGraphicsItem emitted emit].
  rewrite last_last.
  destruct (m_aisObject (GraphicsEntityDriverTable_createEntity
                           (DocumentTreeNode_label doc id))) as [obj|] eqn:Hobj.
  - destruct H as (mapping & Hi & Hb & Hp & He).
    rewrite Hi, Hb, Hp, map_app. cbn [map]. rewrite fold_left_snoc, <- Hbox.
    split; [exact Hptr|]. split; [unfold itemBox; cbn; now rewrite Hobj|].
    split; [|reflexivity].
    intros item Hin. apply in_app_or in Hin. destruct Hin as [Hin|[<-|[]]].
    + now apply Hitems.
    + cbn. rewrite Hobj, Hptr. now split.
  - rewrite H.
    split; [exact Hptr|]. split; [exact Hbox|]. split; [exact Hitems | reflexivity].
Qed.

Lemma wellFormed_destroyed scenePtr (id : TreeNodeId) g :
  wellFormed scenePtr g -> wellFormed scenePtr (onDocumentEntityAboutToBeDestroyed id g).
Proof.
  intros Hwf. pose proof Hwf as (Hptr & Hbox & Hitems & Hlast).
  destruct (findGraphicsItem id g) as [[pos removed]|] eqn:Hf.
  - destruct (findGraphicsItem_Some _ _ _ _ Hf) as (before & after & Hl & Hpos & _ & _).
    unfold onDocumentEntityAboutToBeDestroyed, wellFormed. rewrite Hf.
    cbn [gfxScenePtr m_gpxBoundingBox m_vecGraphicsItem emitted emit with_scene
         with_items with_boundingBox].
    rewrite last_last, Hl, Hpos, vector_erase_middle.
    split; [exact Hptr|]. split; [apply fold_left_map_boxes|]. split; [|reflexivity].
    intros item Hin. apply Hitems. rewrite Hl.
    apply in_app_or in Hin. apply in_or_app. destruct Hin; [now left | right; now right].
  - unfold onDocumentEntityAboutToBeDestroyed. now rewrite Hf.
Qed.

Lemma wellFormed_constructed scenePtr (doc : Document) (ids : list TreeNodeId) :
  forall g, emitted g = [] -> wellFormed scenePtr g ->
    wellFormed scenePtr (fold_left (fun g id => mapGraphics doc id g) ids g)
    /\ emitted (fold_left (fun g id => mapGraphics doc id g) ids g) = [].
Proof.
  induction ids as [|id rest IH]; intros g Hem Hwf; cbn; [now split|].
  destruct (wellFormed_mapGraphics scenePtr doc id g Hem Hwf) as [Hwf' Hem'].
  now apply IH.
Qed.

Lemma wellFormed_run scenePtr (signals : list DocumentSignal) :
  forall g, wellFormed scenePtr g -> wellFormed scenePtr (run signals g).
Proof.
  induction signals as [|s rest IH]; intros g Hwf; cbn; [exact Hwf|].
  apply IH. destruct s as [doc id|id]; cbn.
  - now apply wellFormed_added.
  - now apply wellFormed_destroyed.
Qed.

Lemma wellFormed_reachable
    (doc0 : Document) (scenePtr : Address) (scene0 : GraphicsScene)
    (signals : list DocumentSignal) :
  wellFormed scenePtr (run signals (constructed doc0 (fresh scenePtr scene0))).
Proof.
  apply wellFormed_run. unfold constructed.
  apply wellFormed_constructed; [reflexivity | apply wellFormed_fresh].
Qed.

(** X7. Whatever the document signals, in whatever order, the aggregate
    bounding box of a [GuiDocument] is [BndUtils::add] folded, from a void
    box, over the boxes of the items of its table, in table order. *)
Theorem boundingBox_is_fold_of_table
    (doc0 : Document) (scenePtr : Address) (scene0 : GraphicsScene)
    (signals : list DocumentSignal) :
  let g := run signals (constructed doc0 (fresh scenePtr scene0)) in
  m_gpxBoundingBox g
  = fold_left BndUtils_add (map itemBox (m_vecGraphicsItem g)) Bnd_Box_void.
Proof. exact (proj1 (proj2 (wellFormed_reachable doc0 scenePtr scene0 signals))). Qed.

(** X8. The constructor emits nothing, and after any signals the last
    [graphicsBoundingBoxChanged] emitted, if there is one, carries the box
    the object holds. *)
Theorem last_signal_carries_box
    (doc0 : Document) (scenePtr : Address) (scene0 : GraphicsScene)
    (signals : list DocumentSignal) :
  let g := run signals (constructed doc0 (fresh scenePtr scene0)) in
  emitted (constructed doc0 (fresh scenePtr scene0)) = []
  /\ last (emitted g) (graphicsBoundingBoxChanged (m_gpxBoundingBox g))
     = graphicsBoundingBoxChanged (m_gpxBoundingBox g).
Proof.
  split.
  - unfold constructed.
    apply (wellFormed_constructed scenePtr doc0 (entityTreeNodeIds doc0));
      [reflexivity | apply wellFormed_fresh].
  - exact (proj2 (proj2 (proj2 (wellFormed_reachable doc0 scenePtr scene0 signals)))).
Qed.

(** X9. [findGraphicsEntity] returns either the default entity or an entity
    that has a presentation object and points to the scene of this
    document. *)
Theorem findGraphicsEntity_default_or_shown
    (doc0 : Document) (scenePtr : Address) (scene0 : GraphicsScene)
    (signals : list DocumentSignal) (id : TreeNodeId) :
  let g := run signals (constructed doc0 (fresh scenePtr scene0)) in
  let e := findGraphicsEntity id g in
  e = GraphicsEntity_default
  \/ (IsNull (m_aisObject e) = false
      /\ GraphicsEntity_graphicsScene e = Some scenePtr).
Proof.
  intros g e. subst e. rewrite findGraphicsEntity_find.
  destruct (find _ (m_vecGraphicsItem g)) as [item|] eqn:Hf; [right | now left].
  apply find_some in Hf. destruct Hf as [Hin _].
  exact (proj1 (proj2 (proj2 (wellFormed_reachable doc0 scenePtr scene0 signals)))
           item Hin).
Qed.

End ReachableGuiDocument.

(** ** [GuiDocument]: adding, removing and looking up *)

Lemma removal_leaves_no_item_of_id {K : GuiKernel} (id : TreeNodeId) (g : GuiDocument.t) :
  NoDup (itemIds g) ->
  forall item,
    In item (GuiDocument.m_vecGraphicsItem
               (GuiDocument.onDocumentEntityAboutToBeDestroyed id g)) ->
    GuiDocument.entityTreeNodeId item <> id.
Proof.
  intros Hnd item Hin.
  destruct (GuiDocument.findGraphicsItem id g) as [[pos removed]|] eqn:Hf.
  - destruct (findGraphicsItem_Some _ _ _ _ Hf) as (before & after & Hl & Hpos & Hid & Hb).
    destruct (onDocumentEntityAboutToBeDestroyed_found _ _ _ _ Hf) as [Hi _].
    rewrite Hi, Hl, Hpos, vector_erase_middle in Hin.
    unfold itemIds in Hnd. rewrite Hl, map_app in Hnd. cbn in Hnd.
    apply NoDup_remove_2 in Hnd. intro Heq. apply Hnd.
    rewrite <- map_app, Hid, <- Heq. now apply in_map.
  - unfold GuiDocument.onDocumentEntityAboutToBeDestroyed in Hin. rewrite Hf in Hin.
    now apply (findGraphicsItem_None _ _ Hf).
Qed.


Section TableLookup.
Context {K : GuiKernel}.
Import GuiDocument.

(** X10. Looking up an id right after [entityAdded] for it: when the table
    already had an item of that id, that older item is still the one found;
    otherwise the entity found is the one the driver table created, now
    pointing to the scene, or the default entity when the driver table had
    nothing to show. *)
Theorem lookup_after_entityAdded (doc : Document) (id : TreeNodeId) (g : GuiDocument.t) :
  findGraphicsEntity id (onDocumentEntityAdded doc id g)
  = match findGraphicsItem id g with
    | Some (_, older) => graphicsEntity older
    | None =>
        let e := GraphicsEntityDriverTable_createEntity (DocumentTreeNode_label doc id) in
        if IsNull (m_aisObject e) then GraphicsEntity_default
        else GraphicsEntity_setScene (gfxScenePtr g) e
    end.
Proof.
  rewrite findGraphicsEntity_find, onDocumentEntityAdded_items.
  assert (Hold : option_map snd (findGraphicsItem id g)
                 = find (fun item => N.eqb (entityTreeNodeId item) id) (m_vecGraphicsItem g))
    by apply find_if_from_find.
  pose proof (mapGraphics_items doc id g) as H. cbv zeta in H.
  destruct (m_aisObject (GraphicsEntityDriverTable_createEntity
                           (DocumentTreeNode_label doc id))) as [obj|] eqn:Hobj.
  - destruct H as [mapping Hi]. rewrite Hi, find_app_first, <- Hold.
    destruct (findGraphicsItem id g) as [[pos older]|]; cbn; [reflexivity|].
    rewrite N.eqb_refl. cbn. now rewrite Hobj.
  - rewrite H, <- Hold.
    destruct (findGraphicsItem id g) as [[pos older]|]; cbn; [reflexivity|].
    now rewrite Hobj.
Qed.

(** X11. Adding or removing an entity does not change what is found under
    any other id. *)
Theorem lookup_other_id_unchanged
    (doc : Document) (id other : TreeNodeId) (g : GuiDocument.t) :
  other <> id ->
  findGraphicsEntity other (onDocumentEntityAdded doc id g) = findGraphicsEntity other g
  /\ findGraphicsEntity other (onDocumentEntityAboutToBeDestroyed id g)
     = findGraphicsEntity other g.
Proof.
  intro Hne. rewrite !findGraphicsEntity_find. split.
  - rewrite onDocumentEntityAdded_items.
    pose proof (mapGraphics_items doc id g) as H. cbv zeta in H.
    destruct (m_aisObject _).
    + destruct H as [mapping Hi]. rewrite Hi, find_app_first.
      destruct (find _ (m_vecGraphicsItem g)); [reflexivity|].
      cbn. destruct (N.eqb id other) eqn:He; [|reflexivity].
      apply N.eqb_eq in He. congruence.
    + now rewrite H.
  - destruct (findGraphicsItem id g) as [[pos removed]|] eqn:Hf.
    + destruct (findGraphicsItem_Some _ _ _ _ Hf) as (before & after & Hl & Hpos & Hid & _).
      destruct (onDocumentEntityAboutToBeDestroyed_found _ _ _ _ Hf) as [Hi _].
      rewrite Hi, Hl, Hpos, vector_erase_middle, !find_app_first. cbn.
      destruct (N.eqb (entityTreeNodeId removed) other) eqn:He; [|reflexivity].
      apply N.eqb_eq in He. congruence.
    + unfold onDocumentEntityAboutToBeDestroyed. now rewrite Hf.
Qed.

(** X12. In a table whose ids are distinct, an id that was removed is no
    longer found: the lookup returns the default entity. *)
Theorem lookup_after_removal (id : TreeNodeId) (g : GuiDocument.t) :
  NoDup (itemIds g) ->
  findGraphicsEntity id (onDocumentEntityAboutToBeDestroyed id g) = GraphicsEntity_default.
Proof.
  intro Hnd. rewrite findGraphicsEntity_find.
  pose proof (removal_leaves_no_item_of_id id g) as H.
  destruct (find _ (m_vecGraphicsItem (onDocumentEntityAboutToBeDestroyed id g)))
    as [item|] eqn:Hfind; [exfalso | reflexivity].
  apply find_some in Hfind. destruct Hfind as [Hin Heq]. apply N.eqb_eq in Heq.
  exact (H Hnd item Hin Heq).
Qed.

(** X13. The constructor maps the entities of the document in the order of
    the document and keeps those for which the driver table has something
    to show: the ids of the table are the ids of those entities. *)
Theorem constructed_itemIds (doc : Document) (g0 : GuiDocument.t) :
  itemIds (constructed doc g0)
  = itemIds g0 ++ filter (producesAisObject doc) (entityTreeNodeIds doc).
Proof.
  unfold constructed. generalize g0. clear g0.
  induction (entityTreeNodeIds doc) as [|id rest IH]; intro g0; cbn [fold_left filter].
  - now rewrite app_nil_r.
  - rewrite IH. unfold producesAisObject at 2.
    pose proof (mapGraphics_items doc id g0) as H. cbv zeta in H.
    unfold itemIds at 1.
    destruct (m_aisObject _).
    + destruct H as [mapping Hi]. rewrite Hi, map_app. cbn. now rewrite <- app_assoc.
    + now rewrite H.
Qed.

End TableLookup.

Lemma lookup_other_id_unchanged_witness :
  let g := @GuiDocument.constructed IntervalKernel document_three_entities
             (@GuiDocument.fresh IntervalKernel 64%N scene_empty) in
  3%N <> 1%N
  /\ GuiDocument.findGraphicsEntity 3%N
       (GuiDocument.onDocumentEntityAdded document_three_entities 1%N g)
     = GuiDocument.findGraphicsEntity 3%N g
  /\ GuiDocument.findGraphicsEntity 3%N
       (GuiDocument.onDocumentEntityAboutToBeDestroyed 1%N g)
     = GuiDocument.findGraphicsEntity 3%N g.
Proof.
  cbv zeta. split; [discriminate|].
  apply (@lookup_other_id_unchanged IntervalKernel document_three_entities 1%N 3%N).
  discriminate.
Defined.

Lemma lookup_after_removal_witness :
  let g := @GuiDocument.constructed IntervalKernel document_three_entities
             (@GuiDocument.fresh IntervalKernel 64%N scene_empty) in
  GuiDocument.findGraphicsEntity 1%N (GuiDocument.onDocumentEntityAboutToBeDestroyed 1%N g)
  = GraphicsEntity_default.
Proof.
  cbv zeta.
  apply (@lookup_after_removal IntervalKernel 1%N).
  change (NoDup [1%N; 3%N]).
  repeat constructor; cbn; intuition discriminate.
Defined.

(** Without distinct ids the removal uncovers the second item of the id. *)
Example lookup_after_removal_duplicate :
  let g := @GuiDocument.onDocumentEntityAdded IntervalKernel document_three_entities 1%N
             (@GuiDocument.constructed IntervalKernel document_three_entities
                (@GuiDocument.fresh IntervalKernel 64%N scene_empty)) in
  itemIds g = [1%N; 3%N; 1%N]
  /\ itemIds (GuiDocument.onDocumentEntityAboutToBeDestroyed 1%N g) = [3%N; 1%N]
  /\ IsNull (m_aisObject
               (GuiDocument.findGraphicsEntity 1%N
                  (GuiDocument.onDocumentEntityAboutToBeDestroyed 1%N g))) = false.
Proof. cbv zeta. repeat split. Qed.

(** ** The exporters: a transfer, then a write *)

(** The writer [transfer] leaves: the format it had, and the document and
    the labels the span decides. *)
Lemma gltf_transfer_state (span : list ApplicationItem) (w : OccGltfWriter.t) :
  OccGltfWriter.m_params_format (snd (OccGltfWriter.transfer span w))
  = OccGltfWriter.m_params_format w
  /\ match firstValidItem span with
     | None =>
         OccGltfWriter.m_document (snd (OccGltfWriter.transfer span w)) = None
         /\ OccGltfWriter.m_seqRootLabel (snd (OccGltfWriter.transfer span w)) = []
     | Some first =>
         exists doc,
           document first = Some doc
           /\ OccGltfWriter.m_document (snd (OccGltfWriter.transfer span w)) = Some doc
           /\ OccGltfWriter.m_seqRootLabel (snd (OccGltfWriter.transfer span w))
              = treeNodeLabelsOf doc span
     end.
Proof.
  assert (Hfmt : forall l w0, OccGltfWriter.m_params_format
                                (fold_left OccGltfWriter.transfer_item l w0)
                              = OccGltfWriter.m_params_format w0).
  { induction l as [|a rest IH]; intro w0; cbn [fold_left]; [reflexivity|].
    rewrite IH. unfold OccGltfWriter.transfer_item.
    destruct a as [|d|d id label]; cbn; [reflexivity| |].
    - now destruct (OccGltfWriter.m_document w0).
    - destruct (OccGltfWriter.m_document w0) as [d0|] eqn:Hd0; cbn; rewrite ?Hd0; cbn.
      + now destruct (N.eqb d d0).
      + now rewrite N.eqb_refl. }
  pose proof (transfer_loop_document_null span
                (OccGltfWriter.set_seqRootLabel [] (OccGltfWriter.set_document None w))
                eq_refl) as H.
  unfold OccGltfWriter.transfer.
  destruct (IsNull _); cbn [snd]; (split; [now rewrite Hfmt | exact H]).
Qed.


Section TransferThenWrite.
Context {E : ExportKernel}.

(** X14. [writeFile] after [transfer], on the glTF writer: nothing is
    written when the span had no valid item; otherwise the kernel writer is
    run on the document of the first valid item, for the whole document
    when the span holds no tree node of that document, and for the labels
    of those tree nodes otherwise (a document item beside them does not
    widen the export). *)
Theorem gltf_writeFile_after_transfer
    (span : list ApplicationItem) (w : OccGltfWriter.t)
    (filepath : string) (fs : FileSystem) :
  OccGltfWriter.writeFile filepath (snd (OccGltfWriter.transfer span w)) fs
  = match firstValidItem span with
    | None => (false, fs)
    | Some first =>
        match document first with
        | None => (false, fs)
        | Some doc =>
            let isBinary := match OccGltfWriter.m_params_format w with
                            | OccGltfWriter.Binary => true
                            | OccGltfWriter.Json => false
                            end in
            RWGltf_CafWriter_Perform filepath isBinary doc
              (match treeNodeLabelsOf doc span with
               | [] => None
               | labels => Some labels
               end) fs
        end
    end.
Proof.
  pose proof (gltf_transfer_state span w) as H.
  destruct (OccGltfWriter.transfer span w) as [ok w'] eqn:Ht. cbn [snd].
  destruct H as (Hfmt & H). cbn [snd] in Hfmt, H.
  unfold OccGltfWriter.writeFile.
  destruct (firstValidItem span) as [first|].
  - destruct H as (doc & Hdoc & Hd & Hl). rewrite Hd, Hdoc, Hl, Hfmt.
    now destruct (treeNodeLabelsOf doc span).
  - destruct H as [Hd _]. now rewrite Hd.
Qed.

End TransferThenWrite.

(** *** [OccVrmlWriter::transfer] *)

Section VrmlTransfer.
Context {E : ExportKernel} {V : OccVrmlTransfer.VrmlKernel} {X : XCaf}.
Import OccVrmlTransfer.

Lemma vrml_transfer_loop (occ_7_4 : bool) (size : Z) (span : list ApplicationItem) :
  forall i calls progress,
    fold_left (transfer_item occ_7_4 size) (indexed_from i span) (calls, progress)
    = (calls ++ flat_map (callsOf occ_7_4) span,
       progress ++ map (fun ix => MathUtils_mappedValue (fst ix) 0 (size - 1) 0 100)
                     (indexed_from i span)).
Proof.
  induction span as [|a rest IH]; intros i calls progress; cbn [indexed_from fold_left].
  - cbn. now rewrite !app_nil_r.
  - assert (Hstep : transfer_item occ_7_4 size (calls, progress) (i, a)
                    = (calls ++ callsOf occ_7_4 a,
                       progress ++ [MathUtils_mappedValue i 0 (size - 1) 0 100])).
    { unfold transfer_item. f_equal.
      destruct a as [|d|d id label]; cbn.
      - now rewrite app_nil_r.
      - destruct occ_7_4; [reflexivity | now rewrite app_nil_r].
      - destruct (XCaf_isShape label); [reflexivity | now rewrite app_nil_r]. }
    rewrite Hstep, IH. cbn [flat_map map fst]. now rewrite <- !app_assoc.
Qed.

(** X15. [OccVrmlWriter::transfer] always returns [true] and leaves a
    scene.  The scene is converted from the shapes of the tree nodes that
    are shapes and, on a kernel of version 7.4 or later, the documents, in
    the order of the span; invalid items and other tree nodes add nothing.
    Faces and edges are converted as [m_shapeRepresentation] says.
    Progress is reported once per item.  A [writeFile] that follows gets
    past its null test and fails only on the stream. *)
Theorem vrml_transfer_spec
    (occ_7_4 : bool) (span : list ApplicationItem) (w : OccVrmlTransfer.t)
    (filepath : string) (fs : FileSystem) :
  let '(ok, w', progress) := transfer occ_7_4 span w in
  let scene := VrmlData_ShapeConvert_Convert (flat_map (callsOf occ_7_4) span)
                 (facesOf (m_shapeRepresentation w))
                 (edgesOf (m_shapeRepresentation w)) in
  ok = true
  /\ OccVrmlWriter.m_scene (writer w') = Some scene
  /\ List.length progress = List.length span
  /\ OccVrmlWriter.writeFile filepath (writer w') fs
     = (let '(outs, fs') := OSD_OpenStream filepath fs in
        if outs then write_close_good filepath scene fs' else (false, fs')).
Proof.
  unfold transfer. rewrite vrml_transfer_loop. cbn [app].
  assert (Hlen : forall (l : list ApplicationItem) i,
             List.length (map (fun ix : Z * ApplicationItem =>
                                 MathUtils_mappedValue (fst ix) 0
                                   (Z.of_nat (List.length span) - 1) 0 100)
                            (indexed_from i l)) = List.length l).
  { induction l as [|a rest IH]; intro i; cbn; [reflexivity | now rewrite IH]. }
  split; [reflexivity|]. split; [|split; [apply Hlen|]].
  - cbn. now destruct (m_shapeRepresentation w).
  - unfold OccVrmlWriter.writeFile. cbn [writer OccVrmlWriter.m_scene].
    now destruct (m_shapeRepresentation w).
Qed.

(** X16. [applyProperties] stores the representation in [m_params], and
    [transfer] reads [m_shapeRepresentation]: applying properties changes
    nothing of what a transfer produces. *)
Theorem vrml_applyProperties_not_read_by_transfer
    (occ_7_4 : bool) (span : list ApplicationItem) (w : OccVrmlTransfer.t)
    (params : option VrmlAPI_RepresentationOfShape) :
  let '(ok, w1, progress) := transfer occ_7_4 span (applyProperties params w) in
  let '(ok', w2, progress') := transfer occ_7_4 span w in
  ok = ok'
  /\ writer w1 = writer w2
  /\ progress = progress'
  /\ m_shapeRepresentation (applyProperties params w) = m_shapeRepresentation w.
Proof.
  unfold transfer.
  destruct (fold_left _ _ _) as [calls progress].
  destruct params as [r|]; cbn; repeat split.
Qed.

End VrmlTransfer.

(** The user asks for wireframe; the scene is still converted with both
    faces and edges, as the member [transfer] reads was never set. *)
Example vrml_wireframe_request_ignored :
  let w0 := {| OccVrmlTransfer.writer := @OccVrmlWriter.Build_t RecordingFileSystem None;
               OccVrmlTransfer.m_shapeRepresentation :=
                 OccVrmlTransfer.VrmlAPI_BothRepresentation;
               OccVrmlTransfer.m_params_shapeRepresentation :=
                 OccVrmlTransfer.VrmlAPI_BothRepresentation |} in
  let w1 := OccVrmlTransfer.applyProperties
              (Some OccVrmlTransfer.VrmlAPI_WireFrameRepresentation) w0 in
  OccVrmlWriter.m_scene
    (OccVrmlTransfer.writer
       (snd (fst (@OccVrmlTransfer.transfer RecordingFileSystem RecordingConverter
                    XCAFDoc_ShapeTool true
                    [Item_Document 100%N;
                     Item_DocumentTreeNode 100%N 2%N label_triangulation_only;
                     Item_DocumentTreeNode 100%N 3%N label_face] w1))))
  = Some ([OccVrmlTransfer.ConvertDocument 100%N;
           OccVrmlTransfer.AddShape {| ShapeType := TopAbs_FACE |}], true, true).
Proof. reflexivity. Qed.

(** ** io_occ_step.cpp: parameters and code pages *)

(** X17. For the STEP reader, [restoreDefaults] followed by
    [applyProperties] gives the default parameters in every field but one:
    [preferredShapeRepresentation] is not restored and keeps the value the
    property had.  The result is the default parameters exactly when that
    value was the default already. *)
Theorem step_reader_restoreDefaults_apply
    (defaults m_params : OccStepReader.Parameters) (p : OccStepReader.Properties) :
  let m' := OccStepReader.applyProperties
              (Some (OccStepReader.restoreDefaults defaults p)) m_params in
  OccStepReader.productContext m' = OccStepReader.productContext defaults
  /\ OccStepReader.assemblyLevel m' = OccStepReader.assemblyLevel defaults
  /\ OccStepReader.readShapeAspect m' = OccStepReader.readShapeAspect defaults
  /\ OccStepReader.readSubShapesNames m' = OccStepReader.readSubShapesNames defaults
  /\ OccStepReader.encoding m' = OccStepReader.encoding defaults
  /\ OccStepReader.preferredShapeRepresentation m'
     = OccStepReader.prop_preferredShapeRepresentation p
  /\ (m' = defaults
      <-> OccStepReader.prop_preferredShapeRepresentation p
          = OccStepReader.preferredShapeRepresentation defaults).
Proof.
  cbv zeta. cbn. repeat split.
  - intro H. apply (f_equal OccStepReader.preferredShapeRepresentation) in H. exact H.
  - intro H. rewrite H. now destruct defaults.
Qed.

Example step_reader_restoreDefaults_keeps_representation :
  OccStepReader.preferredShapeRepresentation
    (OccStepReader.applyProperties
       (Some (OccStepReader.restoreDefaults
                {| OccStepReader.productContext := 3;
                   OccStepReader.assemblyLevel := 1;
                   OccStepReader.preferredShapeRepresentation := 1;
                   OccStepReader.readShapeAspect := true;
                   OccStepReader.readSubShapesNames := false;
                   OccStepReader.encoding := OccStepReader.UTF8 |}
                {| OccStepReader.prop_productContext := 1;
                   OccStepReader.prop_assemblyLevel := 2;
                   OccStepReader.prop_preferredShapeRepresentation := 5;
                   OccStepReader.prop_readShapeAspect := false;
                   OccStepReader.prop_readSubShapesNames := true;
                   OccStepReader.prop_encoding := OccStepReader.GB |}))
       {| OccStepReader.productContext := 0;
          OccStepReader.assemblyLevel := 0;
          OccStepReader.preferredShapeRepresentation := 0;
          OccStepReader.readShapeAspect := false;
          OccStepReader.readSubShapesNames := false;
          OccStepReader.encoding := OccStepReader.ANSI |}) = 5.
Proof. reflexivity. Qed.

(** X18. For the STEP writer, [restoreDefaults] followed by
    [applyProperties] gives exactly the default parameters, whatever the
    properties and the parameters were; a group of another class leaves the
    parameters as they are. *)
Theorem step_writer_restoreDefaults_apply
    (defaults m_params : OccStepWriter.Parameters) (p : OccStepWriter.Properties) :
  OccStepWriter.applyProperties (Some (OccStepWriter.restoreDefaults defaults p)) m_params
  = defaults
  /\ OccStepWriter.applyProperties None m_params = m_params.
Proof. split; [now destruct defaults | reflexivity]. Qed.

(** X19. The code page names of [fnOccEncoding].  On a kernel of version
    7.5 or later every encoding has a name; on an older kernel only the five
    base encodings have, and [changeStaticVariables] runs into
    [Q_UNREACHABLE()] exactly for the others.  Two encodings never share a
    name. *)
Theorem fnOccEncoding_spec (occ_7_5 : bool) (a b : OccStepReader.Encoding)
    (m_params : OccStepReader.Parameters) :
  IsNull (OccStepReader.fnOccEncoding occ_7_5 a) = negb (occ_7_5 || isBaseEncoding a)
  /\ (In (OccStepReader.strKeyReadStepCodePage occ_7_5, OccStepReader.StrValue None)
         (OccStepReader.changeStaticVariables occ_7_5 m_params)
      <-> occ_7_5 = false /\ isBaseEncoding (OccStepReader.encoding m_params) = false)
  /\ (OccStepReader.fnOccEncoding occ_7_5 a <> None ->
      OccStepReader.fnOccEncoding occ_7_5 a = OccStepReader.fnOccEncoding occ_7_5 b ->
      a = b).
Proof.
  split; [|split].
  - destruct occ_7_5, a; reflexivity.
  - unfold OccStepReader.changeStaticVariables. cbn [In]. split.
    + intros [H|[H|[H|[H|[H|[H|[]]]]]]]; try (destruct occ_7_5; discriminate).
      injection H as H.
      destruct occ_7_5, (OccStepReader.encoding m_params); cbn in *;
        try discriminate; now split.
    + intros [-> Hb]. do 5 right. left.
      destruct (OccStepReader.encoding m_params); cbn in *; try discriminate; reflexivity.
  - destruct occ_7_5, a; cbn; intro Hdef; try congruence;
      destruct b; cbn; intro Heq; try reflexivity; discriminate.
Qed.

Lemma fnOccEncoding_spec_witness :
  OccStepReader.fnOccEncoding true OccStepReader.ISO_8859_1 <> None
  /\ (OccStepReader.fnOccEncoding true OccStepReader.ISO_8859_1
      = OccStepReader.fnOccEncoding true OccStepReader.ISO_8859_1 ->
      OccStepReader.ISO_8859_1 = OccStepReader.ISO_8859_1).
Proof.
  split; [discriminate|]. intro H.
  exact (proj2 (proj2 (fnOccEncoding_spec true OccStepReader.ISO_8859_1
                         OccStepReader.ISO_8859_1
                         {| OccStepReader.productContext := 0;
                            OccStepReader.assemblyLevel := 0;
                            OccStepReader.preferredShapeRepresentation := 0;
                            OccStepReader.readShapeAspect := false;
                            OccStepReader.readSubShapesNames := false;
                            OccStepReader.encoding := OccStepReader.ANSI |}))
           ltac:(discriminate) H).
Defined.

Example step_codepage_unreachable_before_7_5 :
  OccStepReader.fnOccEncoding false OccStepReader.CP_1252 = None
  /\ OccStepReader.fnOccEncoding true OccStepReader.CP_1252 = Some "CP1252".
Proof. split; reflexivity. Qed.

(** ** [GuiDocument]: the view trihedron *)

Section ViewTrihedron.
Import GuiDocumentView.

Lemma ViewTrihedronMode_eqb_eq (a b : ViewTrihedronMode) :
  ViewTrihedronMode_eqb a b = true <-> a = b.
Proof. destruct a, b; cbn; split; intro H; try reflexivity; discriminate. Qed.

Lemma Qt_Corner_eqb_eq (a b : Qt_Corner) : Qt_Corner_eqb a b = true <-> a = b.
Proof. destruct a, b; cbn; split; intro H; try reflexivity; discriminate. Qed.

(** X20. Each setter of the trihedron emits its signal exactly when the
    value changes, does nothing at all when it does not, and leaves the
    value asked for in the member its getter reads. *)
Theorem trihedron_setters_signal_on_change
    (occ_7_4 : bool) (mode : ViewTrihedronMode) (corner : Qt_Corner) (g : GuiDocumentView.t) :
  (let g' := setViewTrihedronMode occ_7_4 mode g in
   m_viewTrihedronMode g' = mode
   /\ m_viewTrihedronCorner g' = m_viewTrihedronCorner g
   /\ if ViewTrihedronMode_eqb mode (m_viewTrihedronMode g) then g' = g
      else emitted g' = emitted g ++ [viewTrihedronModeChanged mode])
  /\ (let g' := setViewTrihedronCorner corner g in
      m_viewTrihedronCorner g' = corner
      /\ m_viewTrihedronMode g' = m_viewTrihedronMode g
      /\ if Qt_Corner_eqb corner (m_viewTrihedronCorner g) then g' = g
         else emitted g' = emitted g ++ [viewTrihedronCornerChanged corner]).
Proof.
  split; cbv zeta.
  - unfold setViewTrihedronMode.
    destruct (ViewTrihedronMode_eqb mode (m_viewTrihedronMode g)) eqn:He.
    + apply ViewTrihedronMode_eqb_eq in He. now repeat split.
    + destruct mode; cbn; repeat split;
        destruct (IsNull (m_aisViewCube g) && occ_7_4); reflexivity.
  - unfold setViewTrihedronCorner.
    destruct (Qt_Corner_eqb corner (m_viewTrihedronCorner g)) eqn:He.
    + apply Qt_Corner_eqb_eq in He. now repeat split.
    + destruct (m_viewTrihedronMode g) eqn:Hm; cbn; repeat split;
        destruct (m_aisViewCube g); cbn; rewrite ?Hm; reflexivity.
Qed.

Lemma countAddObject_scene_call (c : CubeSceneCall) (g : GuiDocumentView.t) :
  countAddObject (scene_call c g)
  = (countAddObject g + match c with addObject _ => 1 | _ => 0 end)%nat.
Proof.
  unfold countAddObject, scene_call. cbn [cubeSceneCalls].
  rewrite filter_app, List.length_app. now destruct c.
Qed.

Lemma cubeInvariant_serve (occ_7_4 : bool) (g : GuiDocumentView.t) (r : Request) :
  cubeInvariant occ_7_4 g -> cubeInvariant occ_7_4 (serve occ_7_4 g r).
Proof.
  intros [Hcount Hold]. unfold cubeInvariant, countAddObject in *.
  destruct r as [mode|corner]; cbn [serve].
  - unfold setViewTrihedronMode.
    destruct (ViewTrihedronMode_eqb mode (m_viewTrihedronMode g)); [now split|].
    destruct (m_aisViewCube g) as [cube|] eqn:Hcube; destruct mode, occ_7_4;
      cbn; rewrite ?Hcube; cbn; rewrite ?filter_app, ?List.length_app; cbn;
      cbn in Hcount;
      (split;
       [ lia
       | first [ discriminate
               | reflexivity
               | intro Hx; specialize (Hold Hx); discriminate ] ]).
  - unfold setViewTrihedronCorner.
    destruct (Qt_Corner_eqb corner (m_viewTrihedronCorner g)); [now split|].
    destruct (m_aisViewCube g) as [cube|] eqn:Hcube;
      destruct (m_viewTrihedronMode g) eqn:Hm;
      cbn; rewrite ?Hcube; cbn; cbn in Hcount;
      (split;
       [ exact Hcount
       | first [ reflexivity
               | intro Hx; specialize (Hold Hx); discriminate ] ]).
Qed.

(** X21. Whatever modes and corners are asked for, in whatever order, the
    view cube is added to the scene at most once: once when the document
    holds a cube, never when it holds none.  Built against a kernel older
    than 7.4 the document never holds a cube. *)
Theorem viewCube_added_at_most_once (occ_7_4 : bool) (requests : list Request) :
  let g := fold_left (serve occ_7_4) requests initial in
  countAddObject g = (if IsNull (m_aisViewCube g) then 0 else 1)%nat
  /\ (if occ_7_4 then True else m_aisViewCube g = None).
Proof.
  cbv zeta.
  assert (H : forall g, cubeInvariant occ_7_4 g ->
                        cubeInvariant occ_7_4 (fold_left (serve occ_7_4) requests g)).
  { induction requests as [|r rest IH]; intros g Hg; cbn; [exact Hg|].
    apply IH. now apply cubeInvariant_serve. }
  destruct (H initial) as [Hc Hn]; [now split|].
  split; [exact Hc|]. destruct occ_7_4; [exact I | now apply Hn].
Qed.

Lemma viewInvariant_serve (occ_7_4 : bool) (g : GuiDocumentView.t) (r : Request) :
  viewInvariant g -> viewInvariant (serve occ_7_4 g r).
Proof.
  unfold viewInvariant. intro Hg. destruct r as [mode|corner]; cbn [serve].
  - unfold setViewTrihedronMode.
    destruct (ViewTrihedronMode_eqb mode (m_viewTrihedronMode g)); [exact Hg|].
    destruct mode; cbn;
      try (destruct (IsNull (m_aisViewCube g) && occ_7_4); cbn); apply last_last.
  - unfold setViewTrihedronCorner.
    destruct (Qt_Corner_eqb corner (m_viewTrihedronCorner g)); [exact Hg|].
    destruct (m_viewTrihedronMode g) eqn:Hm; cbn; rewrite ?Hm.
    + exact Hg.
    + apply last_last.
    + destruct (m_aisViewCube g); cbn; rewrite Hm; exact Hg.
Qed.

(** X22. Whatever modes and corners are asked for, while the mode is
    [V3dViewZBuffer] the last thing the view was told is to display the
    trihedron at the corner the document holds; in the other modes it is to
    erase it, if the view was told anything. *)
Theorem zbuffer_trihedron_follows_corner (occ_7_4 : bool) (requests : list Request) :
  let g := fold_left (serve occ_7_4) requests initial in
  last (viewCalls g) TriedronErase
  = match m_viewTrihedronMode g with
    | V3dViewZBuffer => TriedronDisplay (toOccCorner (m_viewTrihedronCorner g))
    | _ => TriedronErase
    end.
Proof.
  cbv zeta.
  assert (H : forall g, viewInvariant g ->
                        viewInvariant (fold_left (serve occ_7_4) requests g)).
  { induction requests as [|r rest IH]; intros g Hg; cbn; [exact Hg|].
    apply IH. now apply viewInvariant_serve. }
  now apply (H initial).
Qed.

(** X23. The view cube follows the corner only while the mode is
    [AisViewCube]: there a new corner is written to the cube; in the other
    modes the cube is left alone, and coming back to [AisViewCube] does not
    move it, so it stays where it was while the document holds the new
    corner. *)
Theorem viewCube_corner_when_followed
    (occ_7_4 : bool) (corner : Qt_Corner) (cube : AIS_ViewCube) (g : GuiDocumentView.t) :
  m_aisViewCube g = Some cube ->
  corner <> m_viewTrihedronCorner g ->
  match m_viewTrihedronMode g with
  | AisViewCube =>
      option_map cube_Corner2d (m_aisViewCube (setViewTrihedronCorner corner g))
      = Some (toOccCorner corner)
  | _ =>
      let g' := setViewTrihedronMode occ_7_4 AisViewCube (setViewTrihedronCorner corner g) in
      m_aisViewCube g' = Some cube
      /\ m_viewTrihedronCorner g' = corner
      /\ m_viewTrihedronMode g' = AisViewCube
  end.
Proof.
  intros Hcube Hne.
  assert (He : Qt_Corner_eqb corner (m_viewTrihedronCorner g) = false).
  { destruct (Qt_Corner_eqb corner (m_viewTrihedronCorner g)) eqn:He; [|reflexivity].
    apply Qt_Corner_eqb_eq in He. contradiction. }
  destruct (m_viewTrihedronMode g) eqn:Hm;
    unfold setViewTrihedronCorner; rewrite He, Hm; cbn; rewrite ?Hm, ?Hcube; cbn;
    try reflexivity;
    unfold setViewTrihedronMode; cbn; rewrite Hm, Hcube; cbn; repeat split;
    exact Hcube.
Qed.

(** X24. [toOccCorner] sends the four corners to four different positions. *)
Theorem toOccCorner_injective (a b : Qt_Corner) :
  toOccCorner a = toOccCorner b -> a = b.
Proof. destruct a, b; cbn; intro H; try reflexivity; discriminate. Qed.

End ViewTrihedron.

Lemma viewCube_corner_when_followed_witness :
  let g := GuiDocumentView.setViewTrihedronMode true GuiDocumentView.Mode_None
             (GuiDocumentView.constructed true) in
  let g' := GuiDocumentView.setViewTrihedronMode true GuiDocumentView.AisViewCube
              (GuiDocumentView.setViewTrihedronCorner GuiDocumentView.BottomRightCorner g) in
  GuiDocumentView.m_aisViewCube g' = GuiDocumentView.m_aisViewCube g
  /\ GuiDocumentView.m_viewTrihedronCorner g' = GuiDocumentView.BottomRightCorner
  /\ GuiDocumentView.m_viewTrihedronMode g' = GuiDocumentView.AisViewCube.
Proof.
  cbv zeta.
  refine (@viewCube_corner_when_followed true GuiDocumentView.BottomRightCorner _
            (GuiDocumentView.setViewTrihedronMode true GuiDocumentView.Mode_None
               (GuiDocumentView.constructed true)) eq_refl _).
  discriminate.
Defined.

(** The cube is then shown top left while the document says bottom right. *)
Example viewCube_stale_corner :
  let g' := fold_left (GuiDocumentView.serve true)
              [ GuiDocumentView.SetMode GuiDocumentView.Mode_None;
                GuiDocumentView.SetCorner GuiDocumentView.BottomRightCorner;
                GuiDocumentView.SetMode GuiDocumentView.AisViewCube ]
              (GuiDocumentView.constructed true) in
  option_map GuiDocumentView.cube_Corner2d (GuiDocumentView.m_aisViewCube g')
  = Some GuiDocumentView.Aspect_TOTP_LEFT_UPPER
  /\ GuiDocumentView.toOccCorner (GuiDocumentView.m_viewTrihedronCorner g')
     = GuiDocumentView.Aspect_TOTP_RIGHT_LOWER.
Proof. split; reflexivity. Qed.

(** The object as its constructor leaves it, on either side of 7.4. *)
Example trihedron_constructed :
  GuiDocumentView.emitted (GuiDocumentView.constructed true)
  = [ GuiDocumentView.viewTrihedronModeChanged GuiDocumentView.AisViewCube;
      GuiDocumentView.viewTrihedronCornerChanged GuiDocumentView.TopLeftCorner ]
  /\ option_map GuiDocumentView.cube_Corner2d
       (GuiDocumentView.m_aisViewCube (GuiDocumentView.constructed true))
     = Some GuiDocumentView.Aspect_TOTP_LEFT_UPPER
  /\ GuiDocumentView.emitted (GuiDocumentView.constructed false)
     = [ GuiDocumentView.viewTrihedronModeChanged GuiDocumentView.V3dViewZBuffer ]
  /\ GuiDocumentView.viewCalls (GuiDocumentView.constructed false)
     = [ GuiDocumentView.TriedronDisplay GuiDocumentView.Aspect_TOTP_LEFT_LOWER ].
Proof. repeat split. Qed.

Lemma toOccCorner_injective_witness :
  GuiDocumentView.toOccCorner GuiDocumentView.TopRightCorner
  = GuiDocumentView.toOccCorner GuiDocumentView.TopRightCorner
  /\ GuiDocumentView.TopRightCorner = GuiDocumentView.TopRightCorner.
Proof.
  split; [reflexivity|].
  apply (toOccCorner_injective GuiDocumentView.TopRightCorner GuiDocumentView.TopRightCorner).
  reflexivity.
Defined.
